(** * StackTransform (butterfree.core.transform.transformations.stack_transform)

    A shallow embedding of [StackTransform] and of the few Python and
    PySpark operations it calls, followed by the properties of the
    pattern matcher, of the column selection and of [transform].

    Python [str] values are modelled as [string]: sequences of code
    points below 256.  Methods run in a small state-and-exception monad
    over the attributes of the instance ([self]). *)

From Stdlib Require Import String Ascii List Bool Arith Lia ZArith Permutation.
Import ListNotations.
Local Open Scope string_scope.
Local Open Scope list_scope.

(** ** Python built-ins on [str] *)

Module Py.

(** [s.startswith(prefix)]. *)
Fixpoint startswith (s prefix : string) {struct prefix} : bool :=
  match prefix, s with
  | EmptyString, _ => true
  | String p prefix', String c s' => Ascii.eqb c p && startswith s' prefix'
  | String _ _, EmptyString => false
  end.

(** [s[n:]] for a non-negative [n]. *)
Fixpoint slice_from (n : nat) (s : string) : string :=
  match n, s with
  | O, _ => s
  | S n', String _ s' => slice_from n' s'
  | S _, EmptyString => EmptyString
  end.

(** [s.endswith(suffix)]: the last [len(suffix)] characters of [s] are
    [suffix]. *)
Definition endswith (s suffix : string) : bool :=
  Nat.leb (String.length suffix) (String.length s) &&
  String.eqb (slice_from (String.length s - String.length suffix) s) suffix.

(** [s.split(sep)] for a separator of one character: the segments
    between the occurrences of [sep]; never the empty list. *)
Fixpoint split (sep : ascii) (s : string) : list string :=
  match s with
  | EmptyString => [EmptyString]
  | String c s' =>
      if Ascii.eqb c sep then EmptyString :: split sep s'
      else match split sep s' with
           | seg :: segs => String c seg :: segs
           | [] => [String c EmptyString]
           end
  end.

(** [c in s] for a character [c]. *)
Fixpoint contains (c : ascii) (s : string) : bool :=
  match s with
  | EmptyString => false
  | String d s' => Ascii.eqb d c || contains c s'
  end.

(** [sep.join(parts)]. *)
Fixpoint join (sep : string) (parts : list string) : string :=
  match parts with
  | [] => EmptyString
  | [p] => p
  | p :: ps => p ++ sep ++ join sep ps
  end.

Definition hex_digit (n : nat) : ascii :=
  match n with
  | 0 => "0" | 1 => "1" | 2 => "2" | 3 => "3" | 4 => "4" | 5 => "5"
  | 6 => "6" | 7 => "7" | 8 => "8" | 9 => "9" | 10 => "a" | 11 => "b"
  | 12 => "c" | 13 => "d" | 14 => "e" | _ => "f"
  end%char.

(** [c.isprintable()] on the code points below 256: the controls
    (0-31, 127-159), the no-break space (160) and the soft hyphen (173)
    are not printable. *)
Definition isprintable (c : ascii) : bool :=
  let n := nat_of_ascii c in
  Nat.leb 32 n && negb (Nat.leb 127 n && Nat.leb n 160) && negb (Nat.eqb n 173).

Definition single_quote : ascii := "'"%char.
Definition double_quote : ascii := ascii_of_nat 34.
Definition backslash : ascii := ascii_of_nat 92.

(** One character of [repr(s)], [quote] being the chosen quote. *)
Definition repr_char (quote c : ascii) : string :=
  let bs := backslash in
  if Ascii.eqb c quote || Ascii.eqb c bs then String bs (String c EmptyString)
  else if Ascii.eqb c (ascii_of_nat 9) then String bs "t"
  else if Ascii.eqb c (ascii_of_nat 10) then String bs "n"
  else if Ascii.eqb c (ascii_of_nat 13) then String bs "r"
  else if isprintable c then String c EmptyString
  else let n := nat_of_ascii c in
       String bs (String "x" (String (hex_digit (n / 16))
                                      (String (hex_digit (n mod 16)) EmptyString))).

Fixpoint repr_chars (quote : ascii) (s : string) : string :=
  match s with
  | EmptyString => EmptyString
  | String c s' => repr_char quote c ++ repr_chars quote s'
  end.

(** [repr(s)] of a [str]: single quotes, unless [s] holds a single
    quote and no double quote. *)
Definition repr_str (s : string) : string :=
  let quote := if contains single_quote s && negb (contains double_quote s)
               then double_quote else single_quote in
  String quote (repr_chars quote s ++ String quote EmptyString).

(** [repr(l)] of a list of [str]; [str(l)] and the [format] of a list
    into an empty replacement field give the same text. *)
Definition repr_list (l : list string) : string :=
  "[" ++ join ", " (map repr_str l) ++ "]".

End Py.


(** ** Exceptions and results *)

(** Why Spark's analyser rejects a query. *)
Inductive analysis_error : Type :=
| CannotResolve (name : string)
| AmbiguousReference (name : string)
| DataTypeMismatch
| MultipleGenerators.

(** The exceptions that can leave the methods of the class. *)
Inductive exn : Type :=
| ValueError (msg : string)
| AttributeError (msg : string)
| IndexError
| re_error
| AnalysisException (why : analysis_error).

Inductive result (A : Type) : Type :=
| Ok (a : A)
| Raise (e : exn).
Arguments Ok {A} a.
Arguments Raise {A} e.

(** [l[i]] on a list, with Python's negative indices. *)
Definition getitem {A : Type} (l : list A) (i : Z) : result A :=
  let n := Z.of_nat (List.length l) in
  let k := if (i <? 0)%Z then (i + n)%Z else i in
  if (k <? 0)%Z then Raise IndexError
  else match nth_error l (Z.to_nat k) with
       | Some x => Ok x
       | None => Raise IndexError
       end.

(** ** Regular expressions: the [re] module

    The engine is an interface: [re_compile] fails on a malformed
    pattern ([re.error]), and [re_span r s i j] tells whether the
    compiled pattern matches the characters of [s] from position [i]
    up to position [j], in the context of [s].  The failures of an
    engine short of resources (a repeat count too large, the recursion
    limit) are not modelled. *)
Class ReEngine : Type := {
  re_t : Type;
  re_compile : string -> option re_t;
  re_span : re_t -> string -> nat -> nat -> bool
}.

(** A match object.  The source only tests its truth value, which is
    always true, so nothing else of it is kept. *)
Inductive Match : Type := MatchObject.

Module re.
Section Engine.
Context {engine : ReEngine}.

(** [re.match(pattern, string)]: a match object when zero or more
    characters at the beginning of [string] match the pattern, [None]
    otherwise. *)
Definition match_ (pattern s : string) : result (option Match) :=
  match re_compile pattern with
  | None => Raise re_error
  | Some r =>
      Ok (if existsb (re_span r s 0) (seq 0 (S (String.length s)))
          then Some MatchObject else None)
  end.

(** [re.fullmatch] and [re.search], which the source does not call:
    they are here to tell [re.match] from them. *)
Definition fullmatch (pattern s : string) : result (option Match) :=
  match re_compile pattern with
  | None => Raise re_error
  | Some r =>
      Ok (if re_span r s 0 (String.length s) then Some MatchObject else None)
  end.

Definition search (pattern s : string) : result (option Match) :=
  match re_compile pattern with
  | None => Raise re_error
  | Some r =>
      Ok (if existsb (fun i => existsb (re_span r s i)
                                  (seq i (S (String.length s) - i)))
                     (seq 0 (S (String.length s)))
          then Some MatchObject else None)
  end.

End Engine.
End re.

(** [bool(m)] for [m] a match object or [None]. *)
Definition bool_of_match (m : option Match) : bool :=
  match m with Some _ => true | None => false end.

(** ** A regular-expression engine for a fragment of [re]

    The fragment: literal characters, [.], [^], [$], groups, [|] and
    the greedy [*], [+] and [?].  It gives the [re] examples of the
    class something to run on; the general statements hold for every
    engine. *)

Module MiniRe.

Inductive regex : Type :=
| Empty
| Lit (c : ascii)
| Dot
| Bol
| Eol
| Cat (r1 r2 : regex)
| Alt (r1 r2 : regex)
| Star (r : regex).

Inductive parsed (A : Type) : Type :=
| Parsed (a : A)
| Malformed      (* [re.error] *)
| Unsupported.   (* outside the fragment *)
Arguments Parsed {A} a.
Arguments Malformed {A}.
Arguments Unsupported {A}.

Definition pbind {A B : Type} (p : parsed A) (k : A -> parsed B) : parsed B :=
  match p with
  | Parsed a => k a
  | Malformed => Malformed
  | Unsupported => Unsupported
  end.

Definition newline : ascii := ascii_of_nat 10.

Definition is_alnum (c : ascii) : bool :=
  let n := nat_of_ascii c in
  (Nat.leb 48 n && Nat.leb n 57) || (Nat.leb 65 n && Nat.leb n 90) ||
  (Nat.leb 97 n && Nat.leb n 122).

Definition is_repeat (c : ascii) : bool :=
  (Ascii.eqb c "*" || Ascii.eqb c "+" || Ascii.eqb c "?")%char.

(** The repetition, if any, that follows the item [a]; [repeatable]
    is false for [^] and [$], which cannot be repeated. *)
Definition parse_repeat (a : regex) (repeatable : bool) (s : string)
  : parsed (regex * string) :=
  match s with
  | String c rest =>
      if is_repeat c then
        if negb repeatable then Malformed   (* nothing to repeat *)
        else
          let r := if Ascii.eqb c "*" then Star a
                   else if Ascii.eqb c "+" then Cat a (Star a)
                   else Alt a Empty in
          match rest with
          | String d _ =>
              if Ascii.eqb d "*" then Malformed   (* multiple repeat *)
              else if Ascii.eqb d "+" || Ascii.eqb d "?" || Ascii.eqb d "{"
                   then Unsupported   (* possessive, lazy, counted *)
                   else Parsed (r, rest)
          | EmptyString => Parsed (r, rest)
          end
      else if Ascii.eqb c "{" then Unsupported
      else Parsed (a, s)
  | EmptyString => Parsed (a, s)
  end.

Fixpoint parse_alt (fuel : nat) (s : string) : parsed (regex * string) :=
  match fuel with
  | O => Unsupported
  | S fuel' =>
      pbind (parse_seq fuel' s) (fun '(r1, rest) =>
        match rest with
        | String "|" rest' =>
            pbind (parse_alt fuel' rest') (fun '(r2, rest'') =>
              Parsed (Alt r1 r2, rest''))
        | _ => Parsed (r1, rest)
        end)
  end
with parse_seq (fuel : nat) (s : string) : parsed (regex * string) :=
  match fuel with
  | O => Unsupported
  | S fuel' =>
      match s with
      | EmptyString => Parsed (Empty, s)
      | String c s' =>
          if (Ascii.eqb c "|" || Ascii.eqb c ")")%char then Parsed (Empty, s)
          else
            pbind (parse_atom fuel' c s') (fun '(a, repeatable, rest) =>
            pbind (parse_repeat a repeatable rest) (fun '(p, rest') =>
            pbind (parse_seq fuel' rest') (fun '(r, rest'') =>
              Parsed (Cat p r, rest''))))
      end
  end
with parse_atom (fuel : nat) (c : ascii) (s : string)
  : parsed (regex * bool * string) :=
  match fuel with
  | O => Unsupported
  | S fuel' =>
      if Ascii.eqb c "(" then
        match s with
        | String "?" _ => Unsupported   (* extension syntax *)
        | _ =>
            pbind (parse_alt fuel' s) (fun '(r, rest) =>
              match rest with
              | String ")" rest' => Parsed (r, true, rest')
              | _ => Malformed   (* missing ), unterminated subpattern *)
              end)
        end
      else if Ascii.eqb c "." then Parsed (Dot, true, s)
      else if Ascii.eqb c "^" then Parsed (Bol, false, s)
      else if Ascii.eqb c "$" then Parsed (Eol, false, s)
      else if is_repeat c then Malformed   (* nothing to repeat *)
      else if (Ascii.eqb c "[" || Ascii.eqb c "{")%char then Unsupported
      else if Ascii.eqb c Py.backslash then
        match s with
        | EmptyString => Malformed   (* bad escape (end of pattern) *)
        | String d rest =>
            if is_alnum d || negb (Nat.ltb (nat_of_ascii d) 128)
            then Unsupported   (* classes, references, special escapes *)
            else Parsed (Lit d, true, rest)
        end
      else Parsed (Lit c, true, s)
  end.

Definition parse (pattern : string) : parsed regex :=
  pbind (parse_alt (3 * String.length pattern + 3) pattern) (fun '(r, rest) =>
    match rest with
    | EmptyString => Parsed r
    | _ => Malformed   (* unbalanced parenthesis *)
    end).

(** The positions where a match of [r] that starts at position [i] of
    [s] can end, the engine's first choice first. *)
Fixpoint spans (s : string) (r : regex) (i : nat) : list nat :=
  match r with
  | Empty => [i]
  | Lit c =>
      match String.get i s with
      | Some d => if Ascii.eqb d c then [S i] else []
      | None => []
      end
  | Dot =>
      match String.get i s with
      | Some d => if Ascii.eqb d newline then [] else [S i]
      | None => []
      end
  | Bol => if Nat.eqb i 0 then [i] else []
  | Eol =>
      if Nat.eqb i (String.length s) then [i]
      else if Nat.eqb (S i) (String.length s) then
             match String.get i s with
             | Some d => if Ascii.eqb d newline then [i] else []
             | None => []
             end
           else []
  | Cat r1 r2 => flat_map (spans s r2) (spans s r1 i)
  | Alt r1 r2 => spans s r1 i ++ spans s r2 i
  | Star r' =>
      (fix loop (fuel : nat) (i : nat) {struct fuel} : list nat :=
         match fuel with
         | O => [i]
         | S fuel' =>
             flat_map (fun j => if Nat.ltb i j then loop fuel' j else [])
                      (spans s r' i) ++ [i]
         end) (String.length s) i
  end.

Definition compile (pattern : string) : option regex :=
  match parse pattern with
  | Parsed r => Some r
  | Malformed => None
  | Unsupported => None
  end.

Definition span (r : regex) (s : string) (i j : nat) : bool :=
  existsb (Nat.eqb j) (spans s r i).

#[export] Instance engine : ReEngine :=
  {| re_t := regex; re_compile := compile; re_span := span |}.

End MiniRe.

(** ** PySpark: data frames

    A data frame is its session, its ordered columns, each with the
    name of its data type (as [df.dtypes] gives them), and its rows.  A
    cell is [Some v], or [None] for SQL NULL.  Column names are
    compared with the session's resolver, which ignores case unless
    [spark.sql.caseSensitive] is set.

    What the model computes is the analysis and the evaluation of
    [withColumn] on the explosion of an array of columns, when the
    names handed to [array] are plain identifiers and the columns they
    resolve to have one data type, and when at most one column answers
    to the new name.  Beyond that (names that Spark parses: dots,
    backticks, the star; columns of different types, which Spark casts
    to a common type or rejects; several columns answering to the new
    name, which Spark rejects or not with its version) the answer is
    the session's, which the data frame carries: an array with one
    element per name, or any array when one of the names is a star,
    which Spark expands. *)

Class NameResolution : Type := {
  resolver : string -> string -> bool
}.

Definition caseSensitiveResolution : NameResolution :=
  {| resolver := String.eqb |}.

Definition lower (c : ascii) : ascii :=
  let n := nat_of_ascii c in
  if Nat.leb 65 n && Nat.leb n 90 then ascii_of_nat (n + 32) else c.

Fixpoint lowercase (s : string) : string :=
  match s with
  | EmptyString => EmptyString
  | String c s' => String (lower c) (lowercase s')
  end.

(** Case-insensitive resolution, on names of ASCII letters. *)
Definition caseInsensitiveResolution : NameResolution :=
  {| resolver := fun a b => String.eqb (lowercase a) (lowercase b) |}.

Module Spark.

(** The name of a data type: [bigint], [boolean], [string], ... *)
Definition DataType : Type := string.

Section Frames.
Variable V : Type.
Context {session : NameResolution}.

Definition Row : Type := list (option V).

(** The answers of the session to what the model does not compute.
    [array_beyond schema names] is the analysis of the array of the
    columns [names]: the analyser's rejection, or the type of the
    elements and, for a row and [k], the [k]-th element.
    [star_beyond schema names] is the same when one of the names is a
    star: a rejection, or the type of the elements and the array of a
    row.  [generators_beyond schema rows colName names] is the
    outcome of [withColumn] when several columns answer to [colName]:
    a rejection, or the rows of the result. *)
Record SparkSession : Type := {
  array_beyond :
    list (string * DataType) -> list string ->
    analysis_error + DataType * (Row -> nat -> option V);
  star_beyond :
    list (string * DataType) -> list string ->
    analysis_error + DataType * (Row -> list (option V));
  generators_beyond :
    list (string * DataType) -> list Row -> string -> list string ->
    analysis_error + list Row
}.

Record DataFrame : Type := {
  sparkSession : SparkSession;
  dtypes : list (string * DataType);
  rows : list Row
}.

(** [df.columns]. *)
Definition columns (df : DataFrame) : list string := map fst (dtypes df).

(** [array] applied to column names: an array expression, not yet
    resolved against any data frame. *)
Inductive ArrayColumn : Type := array (cols : list string).

(** [explode(col)]: the generator that yields one row per element of
    the array. *)
Inductive Generator : Type := explode (col : ArrayColumn).

(** A name that Spark expands into several columns: the star, alone
    or after a qualifier. *)
Definition is_star (name : string) : bool :=
  String.eqb name "*" || Py.endswith name ".*".

(** A name that Spark takes whole when it stands for a column: it has
    no dot and no backtick, and is neither empty nor the star. *)
Definition plain (name : string) : bool :=
  negb (String.eqb name EmptyString) && negb (String.eqb name "*") &&
  negb (Py.contains "." name) && negb (Py.contains "`" name).

(** The ordinals of the fields of [schema] that [name] resolves to,
    counted from [k]. *)
Fixpoint candidates (k : nat) (schema : list string) (name : string)
  : list nat :=
  match schema with
  | [] => []
  | field :: schema' =>
      if resolver field name then k :: candidates (S k) schema' name
      else candidates (S k) schema' name
  end.

(** Resolution of a plain column name by the analyser. *)
Definition resolve (schema : list string) (name : string) : result nat :=
  match candidates 0 schema name with
  | [i] => Ok i
  | [] => Raise (AnalysisException (CannotResolve name))
  | _ :: _ :: _ => Raise (AnalysisException (AmbiguousReference name))
  end.

Fixpoint resolve_all (schema : list string) (names : list string)
  : result (list nat) :=
  match names with
  | [] => Ok []
  | name :: names' =>
      match resolve schema name with
      | Raise e => Raise e
      | Ok i =>
          match resolve_all schema names' with
          | Raise e => Raise e
          | Ok idxs => Ok (i :: idxs)
          end
      end
  end.

(** The data type of the field at ordinal [i]. *)
Definition type_at (schema : list (string * DataType)) (i : nat) : DataType :=
  match nth_error schema i with
  | Some (_, t) => t
  | None => EmptyString
  end.

(** The array of the cells at the ordinals [idxs] of a row. *)
Definition array_of (idxs : list nat) (row : Row) : list (option V) :=
  map (fun i => nth i row None) idxs.

(** The analysis of [array] on column names against a data frame: the
    type of the elements and the elements for each row, as many as
    there are names unless one of them is a star. *)
Definition analyse_array (df : DataFrame) (names : list string)
  : result (DataType * (Row -> list (option V))) :=
  let beyond :=
    match array_beyond (sparkSession df) (dtypes df) names with
    | inl why => Raise (AnalysisException why)
    | inr (t, element) =>
        Ok (t, fun row => map (element row) (seq 0 (List.length names)))
    end in
  if existsb is_star names then
    match star_beyond (sparkSession df) (dtypes df) names with
    | inl why => Raise (AnalysisException why)
    | inr (t, elements) => Ok (t, elements)
    end
  else if forallb plain names then
    match resolve_all (columns df) names with
    | Raise e => Raise e
    | Ok idxs =>
        match map (type_at (dtypes df)) idxs with
        | t :: ts =>
            if forallb (String.eqb t) ts then Ok (t, array_of idxs)
            else beyond
        | [] => beyond
        end
    end
  else beyond.

(** A row where the fields called [colName] take the value [v]. *)
Fixpoint replace_fields (schema : list string) (colName : string)
  (v : option V) (row : Row) : Row :=
  match schema, row with
  | field :: schema', x :: row' =>
      (if resolver field colName then v else x)
        :: replace_fields schema' colName v row'
  | _, _ => row
  end.

(** The schema where the fields called [colName] become the column
    [colName] of type [t]. *)
Definition rename_fields (schema : list (string * DataType))
  (colName : string) (t : DataType) : list (string * DataType) :=
  map (fun field => if resolver (fst field) colName then (colName, t) else field)
      schema.

(** [df.withColumn(colName, col)] for [col] the explosion of an array
    of columns: a new data frame that adds the column, or replaces the
    existing column of that name.  Every input row gives one output
    row per element of its array, in order, null elements included. *)
Definition withColumn (df : DataFrame) (colName : string) (col : Generator)
  : result DataFrame :=
  match col with
  | explode (array names) =>
      match analyse_array df names with
      | Raise e => Raise e
      | Ok (t, elements) =>
          match candidates 0 (columns df) colName with
          | [] =>
              Ok {| sparkSession := sparkSession df;
                    dtypes := dtypes df ++ [(colName, t)];
                    rows := flat_map (fun row =>
                              map (fun v => row ++ [v]) (elements row))
                              (rows df) |}
          | [_] =>
              Ok {| sparkSession := sparkSession df;
                    dtypes := rename_fields (dtypes df) colName t;
                    rows := flat_map (fun row =>
                              map (fun v =>
                                     replace_fields (columns df) colName v row)
                                  (elements row))
                              (rows df) |}
          | _ :: _ :: _ =>
              match generators_beyond (sparkSession df) (dtypes df) (rows df)
                      colName names with
              | inl why => Raise (AnalysisException why)
              | inr rows' =>
                  Ok {| sparkSession := sparkSession df;
                        dtypes := rename_fields (dtypes df) colName t;
                        rows := rows' |}
              end
          end
      end
  end.

End Frames.

Arguments array_beyond {V} s schema names.
Arguments star_beyond {V} s schema names.
Arguments generators_beyond {V} s schema rows colName names.
Arguments sparkSession {V} d.
Arguments dtypes {V} d.
Arguments rows {V} d.
Arguments columns {V} df.
Arguments array_of {V} idxs row.
Arguments analyse_array {V session} df names.
Arguments replace_fields {V session} schema colName v row.
Arguments rename_fields {session} schema colName t.
Arguments withColumn {V session} df colName col.

End Spark.
Import Spark.

(** ** The class *)

(** Modelled from the spec: the owning feature, of which the transform
    reads the name; the class is not part of the source file, its
    fields are those of the docstring's example. *)
Record Feature : Type := {
  name : string;
  description : string
}.

(** The attributes of an instance. *)
Record StackTransform : Type := {
  _parent : option Feature;
  columns_names : list string;
  regex_enabled : bool
}.

(** A method: from the attributes of [self] to a result, or an
    exception, and the attributes afterwards. *)
Definition Method (A : Type) : Type :=
  StackTransform -> result A * StackTransform.

Definition ret {A : Type} (a : A) : Method A := fun self => (Ok a, self).

Definition bind {A B : Type} (m : Method A) (k : A -> Method B) : Method B :=
  fun self =>
    match m self with
    | (Ok a, self') => k a self'
    | (Raise e, self') => (Raise e, self')
    end.

Definition raise {A : Type} (e : exn) : Method A := fun self => (Raise e, self).

Definition lift {A : Type} (r : result A) : Method A := fun self => (r, self).

Definition getattr {A : Type} (attr : StackTransform -> A) : Method A :=
  fun self => (Ok (attr self), self).

Definition set_parent (p : option Feature) : Method unit :=
  fun self => (Ok tt, {| _parent := p;
                         columns_names := columns_names self;
                         regex_enabled := regex_enabled self |}).

Definition set_columns_names (l : list string) : Method unit :=
  fun self => (Ok tt, {| _parent := _parent self;
                         columns_names := l;
                         regex_enabled := regex_enabled self |}).

Definition set_regex_enabled (b : bool) : Method unit :=
  fun self => (Ok tt, {| _parent := _parent self;
                         columns_names := columns_names self;
                         regex_enabled := b |}).

Declare Scope method_scope.
Delimit Scope method_scope with method.
Notation "x <- c ;; k" := (bind c (fun x => k))
  (at level 61, c at next level, right associativity) : method_scope.
Notation "c ;; k" := (bind c (fun _ => k))
  (at level 61, right associativity) : method_scope.
Local Open Scope method_scope.

(** [any(f(x) for x in l)]: stops at the first true. *)
Fixpoint any {A : Type} (f : A -> Method bool) (l : list A) : Method bool :=
  match l with
  | [] => ret false
  | x :: l' => b <- f x ;; if b then ret true else any f l'
  end.

(** [[x for x in l if f(x)]]. *)
Fixpoint comprehension {A : Type} (f : A -> Method bool) (l : list A)
  : Method (list A) :=
  match l with
  | [] => ret []
  | x :: l' =>
      b <- f x ;;
      rest <- comprehension f l' ;;
      ret (if b then x :: rest else rest)
  end.

(** [parent.name], for [parent] a feature or [None]. *)
Definition name_of (parent : option Feature) : result string :=
  match parent with
  | Some feature => Ok (name feature)
  | None => Raise (AttributeError "'NoneType' object has no attribute 'name'")
  end.

(** Modelled from the spec: [TransformComponent.__init__], which is not
    part of the source file; it leaves the transformation without an
    owning feature, the binding being deferred. *)
Definition TransformComponent__init__ : Method unit := set_parent None.

Section StackTransform.
Variable V : Type.
Context {session : NameResolution} {engine : ReEngine}.

(** [__init__(self, *columns_names, is_regex=False)]. *)
Definition __init__ (columns_names : list string) (is_regex : bool)
  : Method unit :=
  TransformComponent__init__ ;;
  set_columns_names columns_names ;;
  set_regex_enabled is_regex.

(** The property [output_columns]. *)
Definition output_columns : Method string :=
  parent <- getattr _parent ;;
  lift (name_of parent).

Definition _matches_pattern (pattern column : string) : Method bool :=
  regex_enabled <- getattr regex_enabled ;;
  if regex_enabled then
    m <- lift (re.match_ pattern column) ;;
    ret (bool_of_match m)
  else
    let negate := false in
    let '(negate, pattern) :=
      if Py.startswith pattern "!" then (true, Py.slice_from 1 pattern)
      else (negate, pattern) in
    let split := Py.split "*" pattern in
    first <- lift (getitem split 0) ;;
    matches_pattern <-
      (if Py.startswith column first then
         last <- lift (getitem split (-1)) ;;
         ret (Py.endswith column last)
       else ret false) ;;
    ret (if negb negate then matches_pattern else negb matches_pattern).

(** The condition of the list comprehension of [transform]: some
    pattern of the instance matches [column]. *)
Definition any_pattern_matches (column : string) : Method bool :=
  patterns <- getattr columns_names ;;
  any (fun pattern => _matches_pattern pattern column) patterns.

(** The list comprehension of [transform], bound there to the local
    [columns]. *)
Definition transform_columns (dataframe : DataFrame V) : Method (list string) :=
  comprehension any_pattern_matches (columns dataframe).

Definition transform (dataframe : DataFrame V) : Method (DataFrame V) :=
  columns <- transform_columns dataframe ;;
  match columns with
  | [] =>
      raise (ValueError ("Columns not found, columns in df: "
                           ++ Py.repr_list (Spark.columns dataframe)))
  | _ :: _ =>
      parent <- getattr _parent ;;
      name <- lift (name_of parent) ;;
      lift (withColumn dataframe name (explode (array columns)))
  end.

End StackTransform.

Arguments transform_columns {V engine} dataframe self.
Arguments transform {V session engine} dataframe self.

(** ** Vocabulary of the properties *)

(** The text before the first [sep] of [s] (all of [s] without one). *)
Fixpoint before_first (sep : ascii) (s : string) : string :=
  match s with
  | EmptyString => EmptyString
  | String c s' =>
      if Ascii.eqb c sep then EmptyString else String c (before_first sep s')
  end.

(** The text after the last [sep] of [s] (all of [s] without one). *)
Fixpoint after_last (sep : ascii) (s : string) : string :=
  match s with
  | EmptyString => EmptyString
  | String c s' =>
      if Py.contains sep s' then after_last sep s'
      else if Ascii.eqb c sep then s' else s
  end.

Fixpoint count_char (c : ascii) (s : string) : nat :=
  match s with
  | EmptyString => 0
  | String d s' => (if Ascii.eqb d c then 1 else 0) + count_char c s'
  end.

(** [column] starts with the first literal segment of [pattern] and
    ends with its last one. *)
Definition wildcard_match (pattern column : string) : bool :=
  Py.startswith column (before_first "*" pattern) &&
  Py.endswith column (after_last "*" pattern).

(** [l1] is [l2] with some elements left out. *)
Inductive subsequence {A : Type} : list A -> list A -> Prop :=
| subsequence_nil : subsequence [] []
| subsequence_skip x l1 l2 : subsequence l1 l2 -> subsequence l1 (x :: l2)
| subsequence_keep x l1 l2 : subsequence l1 l2 -> subsequence (x :: l1) (x :: l2).

(** The first position of [c] in [l] ([length l] when there is none). *)
Fixpoint index_of (c : string) (l : list string) : nat :=
  match l with
  | [] => 0
  | x :: l' => if String.eqb x c then 0 else S (index_of c l')
  end.

(** The cell of [row] under the column called [c]. *)
Definition cell {V : Type} (schema : list string) (row : list (option V))
  (c : string) : option V :=
  nth (index_of c schema) row None.

(** None of the names is a star. *)
Definition star_free (names : list string) : Prop :=
  forall c, In c names -> is_star c = false.

(** The data type of the column called [c]. *)
Definition dtype_of {V : Type} (df : DataFrame V) (c : string) : DataType :=
  type_at (dtypes df) (index_of c (columns df)).

(** The name [c] is one that Spark takes whole, and it resolves to its
    own column and to no other. *)
Definition resolves_alone {session : NameResolution} (schema : list string)
  (c : string) : Prop :=
  plain c = true /\ candidates 0 schema c = [index_of c schema].

(** The columns [sel] of [df] can be put in one array as they are: each
    name resolves alone and the columns have one data type. *)
Definition stackable {V : Type} {session : NameResolution} (df : DataFrame V)
  (sel : list string) : Prop :=
  (forall c, In c sel -> resolves_alone (columns df) c) /\
  (forall c c', In c sel -> In c' sel -> dtype_of df c = dtype_of df c').

(** The answer of the matcher as a boolean: an exception counts as no
    match. *)
Definition matches_b {engine : ReEngine} (self : StackTransform)
  (pattern column : string) : bool :=
  match fst (_matches_pattern pattern column self) with
  | Ok b => b
  | Raise _ => false
  end.

(** The columns of [schema] that some pattern of the instance matches,
    in the order of [schema]. *)
Definition matching_columns {engine : ReEngine} (self : StackTransform)
  (schema : list string) : list string :=
  filter (fun column =>
            existsb (fun pattern => matches_b self pattern column)
                    (columns_names self))
         schema.

(** A method that leaves the attributes of the instance as they were. *)
Definition reads_only {A : Type} (m : Method A) : Prop :=
  forall self, snd (m self) = self.

(** The truth value of a result, an exception counting as false. *)
Definition truth (r : result bool) : bool :=
  match r with
  | Ok b => b
  | Raise _ => false
  end.

(** The docstring's example, and variations on it. *)
Module Sample.

(** A session as PySpark 3.3 is on flat tables of [bigint] and
    [boolean] columns: a name with a dot or a backtick stands for no
    column, the two types have no common type, the star alone stands
    for all the columns, and a second generator in one projection is
    rejected. *)
Definition spark {V : Type} : SparkSession V :=
  {| array_beyond := fun _ names =>
       inl match filter (fun name => negb (plain name)) names with
           | name :: _ => CannotResolve name
           | [] => DataTypeMismatch
           end;
     star_beyond := fun schema names =>
       match names, map snd schema with
       | ["*"], t :: ts =>
           if forallb (String.eqb t) ts then inr (t, fun row => row)
           else inl DataTypeMismatch
       | _, _ =>
           inl match filter (fun name => negb (plain name)) names with
               | name :: _ => CannotResolve name
               | [] => DataTypeMismatch
               end
       end;
     generators_beyond := fun _ _ _ _ => inl MultipleGenerators |}.

Definition df : DataFrame Z :=
  {| sparkSession := spark;
     dtypes := [("feature", "bigint"); ("id_a", "bigint"); ("id_b", "bigint")];
     rows := [[Some 100; Some 1; Some 2]; [Some 120; Some 3; Some 4]]%Z |}.

Definition stack_ids : Feature :=
  {| name := "stack_ids"; description := "id_a and id_b stacked in a single column." |}.

Definition other_ids : Feature :=
  {| name := "stack_ids"; description := "another description" |}.

Definition by_name : StackTransform :=
  {| _parent := Some stack_ids;
     columns_names := ["id_a"; "id_b"];
     regex_enabled := false |}.

Definition by_wildcard : StackTransform :=
  {| _parent := Some stack_ids;
     columns_names := ["id_*"];
     regex_enabled := false |}.

Definition by_regex : StackTransform :=
  {| _parent := Some stack_ids;
     columns_names := ["^id_"];
     regex_enabled := true |}.

Definition unbound : StackTransform :=
  {| _parent := None; columns_names := ["id_*"]; regex_enabled := false |}.

(** A feature named after a column the table already has. *)
Definition feature_again : Feature :=
  {| name := "feature"; description := EmptyString |}.

Definition overwriting : StackTransform :=
  {| _parent := Some feature_again;
     columns_names := ["id_a"; "id_b"];
     regex_enabled := false |}.

(** A well-formed regular expression followed by a malformed one. *)
Definition half_malformed : StackTransform :=
  {| _parent := Some stack_ids;
     columns_names := ["id_a"; "("];
     regex_enabled := true |}.

Definition simple : StackTransform :=
  {| _parent := None; columns_names := []; regex_enabled := false |}.

(** The same patterns in the other order, under a feature of the same
    name. *)
Definition by_name_reversed : StackTransform :=
  {| _parent := Some other_ids;
     columns_names := ["id_b"; "id_a"];
     regex_enabled := false |}.

Definition by_name_again : StackTransform :=
  {| _parent := Some other_ids;
     columns_names := ["id_a"; "id_b"];
     regex_enabled := false |}.

(** A table with two columns of the same name, as a join leaves. *)
Definition twice : DataFrame Z :=
  {| sparkSession := spark;
     dtypes := [("id", "bigint"); ("id", "bigint")];
     rows := [[Some 1; Some 2]]%Z |}.

(** A table with a number and a truth value. *)
Definition mixed : DataFrame (Z + bool) :=
  {| sparkSession := spark;
     dtypes := [("id_a", "bigint"); ("id_b", "boolean")];
     rows := [[Some (inl 1%Z); Some (inr true)]] |}.

(** A table with a dot in a column name. *)
Definition dotted : DataFrame Z :=
  {| sparkSession := spark;
     dtypes := [("feature", "bigint"); ("id.a", "bigint")];
     rows := [[Some 100; Some 1]]%Z |}.

Definition by_id_dot : StackTransform :=
  {| _parent := Some stack_ids;
     columns_names := ["id.a"];
     regex_enabled := false |}.

(** A regular expression that matches every name, before and after a
    malformed one. *)
Definition all_then_malformed : StackTransform :=
  {| _parent := Some stack_ids;
     columns_names := [".*"; "("];
     regex_enabled := true |}.

Definition malformed_then_all : StackTransform :=
  {| _parent := Some stack_ids;
     columns_names := ["("; ".*"];
     regex_enabled := true |}.

Definition by_id : StackTransform :=
  {| _parent := Some stack_ids; columns_names := ["id"]; regex_enabled := false |}.


End Sample.

(** * Properties *)

Local Open Scope string_scope.

(** ** The built-ins on examples *)

Example split_examples :
  Py.split "*" "id_*" = ["id_"; EmptyString] /\
  Py.split "*" EmptyString = [EmptyString] /\
  Py.split "*" "a*b*c" = ["a"; "b"; "c"] /\
  Py.split "*" "*" = [EmptyString; EmptyString] /\
  Py.split "*" "id_a" = ["id_a"].
Proof. repeat split. Qed.

Example endswith_examples :
  Py.endswith "feature_id" "_id" = true /\
  Py.endswith "id" "_id" = false /\
  Py.endswith "id_a" EmptyString = true.
Proof. repeat split. Qed.

Example getitem_examples :
  getitem ["a"; "b"; "c"] 0 = Ok "a" /\
  getitem ["a"; "b"; "c"] (-1) = Ok "c" /\
  getitem (@nil string) 0 = Raise IndexError.
Proof. repeat split. Qed.

Example repr_list_example :
  Py.repr_list ["feature"; "id_a"; "id_b"] = "['feature', 'id_a', 'id_b']".
Proof. reflexivity. Qed.

Example repr_str_with_single_quote :
  Py.repr_str "it's" =
    String Py.double_quote ("it's" ++ String Py.double_quote EmptyString).
Proof. reflexivity. Qed.

Example repr_str_escapes :
  Py.repr_str (String (ascii_of_nat 10) (String (ascii_of_nat 160) "a")) =
    String "'" (String Py.backslash "n" ++ String Py.backslash "xa0" ++ "a'").
Proof. reflexivity. Qed.

Example parse_examples :
  MiniRe.parse "^id_" =
    MiniRe.Parsed
      (MiniRe.Cat MiniRe.Bol
         (MiniRe.Cat (MiniRe.Lit "i")
            (MiniRe.Cat (MiniRe.Lit "d")
               (MiniRe.Cat (MiniRe.Lit "_") MiniRe.Empty)))) /\
  MiniRe.parse "(" = MiniRe.Malformed /\
  MiniRe.parse "a)" = MiniRe.Malformed /\
  MiniRe.parse "*a" = MiniRe.Malformed /\
  MiniRe.parse "a**" = MiniRe.Malformed /\
  MiniRe.parse "[a-z]" = MiniRe.Unsupported.
Proof. repeat split. Qed.

Example re_match_examples :
  @re.match_ MiniRe.engine "(a|b)*c" "ababcx" = Ok (Some MatchObject) /\
  @re.match_ MiniRe.engine "(a|b)*c$" "ababcx" = Ok None /\
  @re.match_ MiniRe.engine ".*id" "feature_id" = Ok (Some MatchObject) /\
  @re.match_ MiniRe.engine "(" "a" = Raise re_error.
Proof. repeat split. Qed.

(** The docstring's example. *)
Example docstring_example :
  (exists out,
     fst (@transform Z caseInsensitiveResolution MiniRe.engine
            Sample.df Sample.by_name) = Ok out /\
     columns out = ["feature"; "id_a"; "id_b"; "stack_ids"] /\
     dtypes out = [("feature", "bigint"); ("id_a", "bigint");
                   ("id_b", "bigint"); ("stack_ids", "bigint")] /\
     rows out = [[Some 100; Some 1; Some 2; Some 1];
                 [Some 100; Some 1; Some 2; Some 2];
                 [Some 120; Some 3; Some 4; Some 3];
                 [Some 120; Some 3; Some 4; Some 4]]%Z) /\
  fst (@transform Z caseInsensitiveResolution MiniRe.engine
         Sample.df Sample.by_wildcard) =
  fst (@transform Z caseInsensitiveResolution MiniRe.engine
         Sample.df Sample.by_name) /\
  fst (@transform Z caseInsensitiveResolution MiniRe.engine
         Sample.df Sample.by_regex) =
  fst (@transform Z caseInsensitiveResolution MiniRe.engine
         Sample.df Sample.by_name).
Proof.
  split; [|split; reflexivity].
  eexists. split; [reflexivity|]. repeat split.
Qed.

(** ** Strings *)

Lemma append_nil_r (s : string) : s ++ EmptyString = s.
Proof. induction s as [|c s IH]; simpl; [reflexivity | now rewrite IH]. Qed.

Lemma append_assoc (s t u : string) : (s ++ t) ++ u = s ++ (t ++ u).
Proof. induction s as [|c s IH]; simpl; [reflexivity | now rewrite IH]. Qed.

Lemma length_append (s t : string) :
  String.length (s ++ t) = String.length s + String.length t.
Proof. induction s as [|c s IH]; simpl; [reflexivity | now rewrite IH]. Qed.

Lemma startswith_spec (s p : string) :
  Py.startswith s p = true <-> exists t, s = p ++ t.
Proof.
  revert s; induction p as [|c p IH]; intros s; simpl.
  - split; [intros _; now exists s | reflexivity].
  - destruct s as [|d s].
    + split; [discriminate | intros [t H]; discriminate].
    + rewrite andb_true_iff, Ascii.eqb_eq, IH. split.
      * intros [-> [t ->]]. now exists t.
      * intros [t H]. injection H as -> ->. split; [reflexivity | now exists t].
Qed.

Lemma startswith_empty (s : string) : Py.startswith s EmptyString = true.
Proof. reflexivity. Qed.

Lemma startswith_refl (s : string) : Py.startswith s s = true.
Proof. apply startswith_spec. exists EmptyString. now rewrite append_nil_r. Qed.

Lemma slice_from_append (t p : string) :
  Py.slice_from (String.length t) (t ++ p) = p.
Proof. induction t as [|c t IH]; simpl; [now destruct p | exact IH]. Qed.

Lemma slice_from_split (n : nat) (s : string) :
  n <= String.length s ->
  exists t, s = t ++ Py.slice_from n s /\ String.length t = n.
Proof.
  revert s; induction n as [|n IH]; intros s Hn.
  - exists EmptyString. now destruct s.
  - destruct s as [|c s]; simpl in Hn; [lia|].
    destruct (IH s) as [t [Ht Hl]]; [lia|].
    exists (String c t). simpl. split; [now rewrite <- Ht | now rewrite Hl].
Qed.

Lemma endswith_spec (s p : string) :
  Py.endswith s p = true <-> exists t, s = t ++ p.
Proof.
  unfold Py.endswith. rewrite andb_true_iff, Nat.leb_le, String.eqb_eq. split.
  - intros [Hle Heq].
    destruct (slice_from_split (String.length s - String.length p) s)
      as [t [Ht _]]; [lia|].
    exists t. now rewrite Heq in Ht.
  - intros [t ->]. rewrite length_append. split; [lia|].
    replace (String.length t + String.length p - String.length p)
      with (String.length t) by lia.
    apply slice_from_append.
Qed.

Lemma endswith_empty (s : string) : Py.endswith s EmptyString = true.
Proof. apply endswith_spec. exists s. now rewrite append_nil_r. Qed.

Lemma endswith_refl (s : string) : Py.endswith s s = true.
Proof. apply endswith_spec. now exists EmptyString. Qed.

(** ** [split] *)

Lemma split_not_nil (sep : ascii) (s : string) : Py.split sep s <> [].
Proof.
  destruct s as [|c s]; simpl; [discriminate|].
  destruct (Ascii.eqb c sep); [discriminate|].
  destruct (Py.split sep s); discriminate.
Qed.

Lemma split_without (sep : ascii) (s : string) :
  Py.contains sep s = false -> Py.split sep s = [s].
Proof.
  induction s as [|c s IH]; simpl; [reflexivity|].
  intros H. apply orb_false_iff in H as [Hc Hs].
  rewrite Hc, (IH Hs). reflexivity.
Qed.

Lemma split_with (sep : ascii) (s : string) :
  Py.contains sep s = true ->
  exists seg seg' segs, Py.split sep s = seg :: seg' :: segs.
Proof.
  induction s as [|c s IH]; simpl; [discriminate|].
  destruct (Ascii.eqb c sep) eqn:Hc; simpl; intros H.
  - destruct (Py.split sep s) as [|x l] eqn:Hs.
    + now destruct (split_not_nil sep s).
    + now exists EmptyString, x, l.
  - destruct (IH H) as [seg [seg' [segs ->]]].
    now exists (String c seg), seg', segs.
Qed.

Lemma split_head (sep : ascii) (s : string) :
  hd EmptyString (Py.split sep s) = before_first sep s.
Proof.
  induction s as [|c s IH]; simpl; [reflexivity|].
  destruct (Ascii.eqb c sep); [reflexivity|].
  destruct (Py.split sep s) as [|x l] eqn:Hs.
  - now destruct (split_not_nil sep s).
  - simpl in *. now rewrite IH.
Qed.

Lemma after_last_without (sep : ascii) (s : string) :
  Py.contains sep s = false -> after_last sep s = s.
Proof.
  destruct s as [|c s]; simpl; [reflexivity|].
  intros H. apply orb_false_iff in H as [Hc Hs]. now rewrite Hs, Hc.
Qed.

Lemma split_last (sep : ascii) (s : string) :
  last (Py.split sep s) EmptyString = after_last sep s.
Proof.
  induction s as [|c s IH]; [reflexivity|].
  cbn [Py.split after_last].
  destruct (Py.contains sep s) eqn:Hs.
  - destruct (split_with sep s Hs) as [seg [seg' [segs Heq]]].
    rewrite Heq in *. destruct (Ascii.eqb c sep); exact IH.
  - rewrite (split_without sep s Hs) in *.
    destruct (Ascii.eqb c sep) eqn:Hc; simpl.
    + reflexivity.
    + reflexivity.
Qed.

Lemma getitem_first {A : Type} (x : A) (l : list A) : getitem (x :: l) 0 = Ok x.
Proof. reflexivity. Qed.

Lemma nth_error_last {A : Type} (l : list A) (d : A) :
  l <> [] -> nth_error l (List.length l - 1) = Some (last l d).
Proof.
  induction l as [|x l IH]; [congruence|]. intros _.
  destruct l as [|y l]; [reflexivity|].
  specialize (IH ltac:(discriminate)).
  cbn [List.length] in *.
  replace (S (S (List.length l)) - 1) with (S (S (List.length l) - 1)) by lia.
  exact IH.
Qed.

Lemma getitem_last {A : Type} (l : list A) (d : A) :
  l <> [] -> getitem l (-1) = Ok (last l d).
Proof.
  intros Hl. unfold getitem. cbn [Z.ltb Z.compare].
  assert (Hlen : 1 <= List.length l) by (destruct l; [congruence | simpl; lia]).
  destruct (Z.ltb_spec (-1 + Z.of_nat (List.length l)) 0) as [H|H]; [lia|].
  replace (Z.to_nat (-1 + Z.of_nat (List.length l))) with (List.length l - 1) by lia.
  now rewrite (nth_error_last l d Hl).
Qed.

Lemma getitem_split_first (s : string) :
  getitem (Py.split "*" s) 0 = Ok (before_first "*" s).
Proof.
  rewrite <- split_head. destruct (Py.split "*" s) as [|x l] eqn:H.
  - now destruct (split_not_nil "*" s).
  - reflexivity.
Qed.

Lemma getitem_split_last (s : string) :
  getitem (Py.split "*" s) (-1) = Ok (after_last "*" s).
Proof.
  rewrite <- split_last. apply getitem_last, split_not_nil.
Qed.

Lemma contains_append_sep (sep : ascii) (x y : string) :
  Py.contains sep (x ++ String sep y) = true.
Proof.
  induction x as [|c x IH]; simpl.
  - now rewrite Ascii.eqb_refl.
  - rewrite IH. apply orb_true_r.
Qed.

Lemma before_first_append (sep : ascii) (pre x : string) :
  Py.contains sep pre = false -> before_first sep (pre ++ String sep x) = pre.
Proof.
  induction pre as [|c pre IH]; simpl.
  - now rewrite Ascii.eqb_refl.
  - intros H. apply orb_false_iff in H as [Hc Hp]. now rewrite Hc, (IH Hp).
Qed.

Lemma after_last_append (sep : ascii) (x suf : string) :
  Py.contains sep suf = false -> after_last sep (x ++ String sep suf) = suf.
Proof.
  intros Hs. induction x as [|c x IH]; simpl.
  - now rewrite Hs, Ascii.eqb_refl.
  - now rewrite contains_append_sep.
Qed.

(** ** The matcher *)

Section Matcher.
Context {engine : ReEngine}.

(** In simplified mode the matcher never raises: it answers the
    prefix-and-suffix test, negated after a leading [!]. *)
Lemma matches_simple (self : StackTransform) (P C : string) :
  regex_enabled self = false ->
  _matches_pattern P C self =
    (Ok (if Py.startswith P "!" then negb (wildcard_match (Py.slice_from 1 P) C)
         else wildcard_match P C), self).
Proof.
  intros Hmode. unfold _matches_pattern, bind, getattr, lift, ret.
  rewrite Hmode. unfold wildcard_match.
  destruct (Py.startswith P "!"); cbn [negb];
    rewrite getitem_split_first;
    match goal with
    | |- context [Py.startswith C ?p] => destruct (Py.startswith C p)
    end; cbn [andb negb]; try reflexivity;
    now rewrite getitem_split_last.
Qed.

(** In regex mode the matcher is the truth value of [re.match]. *)
Lemma matches_regex (self : StackTransform) (P C : string) :
  regex_enabled self = true ->
  _matches_pattern P C self =
    (match re.match_ P C with
     | Ok m => Ok (bool_of_match m)
     | Raise e => Raise e
     end, self).
Proof.
  intros Hmode. unfold _matches_pattern, bind, getattr, lift, ret.
  rewrite Hmode. now destruct (re.match_ P C).
Qed.

(** The matcher only reads the instance. *)
Lemma matches_state (self : StackTransform) (P C : string) :
  snd (_matches_pattern P C self) = self.
Proof.
  destruct (regex_enabled self) eqn:Hmode.
  - now rewrite matches_regex.
  - now rewrite matches_simple.
Qed.

Lemma re_match_true (P C : string) :
  re.match_ P C = Ok (Some MatchObject) <->
  exists r j, re_compile P = Some r /\ j <= String.length C /\
              re_span r C 0 j = true.
Proof.
  unfold re.match_. destruct (re_compile P) as [r|].
  - destruct (existsb (re_span r C 0) (seq 0 (S (String.length C)))) eqn:Hex.
    + split; [intros _ | reflexivity].
      apply existsb_exists in Hex as [j [Hin Hj]]. apply in_seq in Hin.
      exists r, j. repeat split; [lia | exact Hj].
    + split; [discriminate|]. intros [r' [j [Hr [Hle Hj]]]].
      injection Hr as <-.
      assert (Hex' : existsb (re_span r C 0) (seq 0 (S (String.length C))) = true).
      { apply existsb_exists. exists j. split; [apply in_seq; lia | exact Hj]. }
      congruence.
  - split; [discriminate|]. intros [r [j [Hr _]]]. discriminate.
Qed.

(** A pattern without wildcard and without negation is tested as a
    prefix and as a suffix of the column name. *)
Lemma matches_plain (self : StackTransform) (P C : string) :
  regex_enabled self = false ->
  Py.contains "*" P = false -> Py.startswith P "!" = false ->
  fst (_matches_pattern P C self) = Ok (Py.startswith C P && Py.endswith C P).
Proof.
  intros Hmode Hstar Hneg. rewrite (matches_simple self P C Hmode), Hneg.
  unfold wildcard_match. cbn [fst].
  rewrite (after_last_without "*" P Hstar).
  replace (before_first "*" P) with P; [reflexivity|].
  clear Hneg. induction P as [|c P IH]; [reflexivity|].
  simpl in *. apply orb_false_iff in Hstar as [Hc HP].
  now rewrite Hc, <- (IH HP).
Qed.

(** The column called exactly as such a pattern is matched. *)
Lemma matches_own_name (self : StackTransform) (P : string) :
  regex_enabled self = false ->
  Py.contains "*" P = false -> Py.startswith P "!" = false ->
  fst (_matches_pattern P P self) = Ok true.
Proof.
  intros Hmode Hstar Hneg.
  now rewrite (matches_plain self P P Hmode Hstar Hneg),
    startswith_refl, endswith_refl.
Qed.

End Matcher.

(** C3, at the input where it fails: in simplified mode the pattern
    [ab], which holds neither a wildcard nor a negation, matches the
    column [abab], although the two names differ; so does the empty
    pattern. *)
Theorem C3_plain_pattern_matches_longer_name :
  forall (engine : ReEngine),
    fst (_matches_pattern "ab" "abab" Sample.simple) = Ok true /\
    "ab" <> "abab" /\
    Py.contains "*" "ab" = false /\ Py.startswith "ab" "!" = false /\
    fst (_matches_pattern EmptyString "abab" Sample.simple) = Ok true /\
    ~ (forall (self : StackTransform) (P C : string),
          regex_enabled self = false ->
          Py.contains "*" P = false -> Py.startswith P "!" = false ->
          (fst (_matches_pattern P C self) = Ok true <-> P = C)).
Proof.
  intros engine.
  split; [reflexivity|]. split; [discriminate|].
  split; [reflexivity|]. split; [reflexivity|]. split; [reflexivity|].
  intros H.
  pose proof (proj1 (H Sample.simple "ab" "abab" eq_refl eq_refl eq_refl) eq_refl).
  discriminate.
Qed.

(** C5: in regex mode the matcher answers true exactly when the
    pattern compiles and matches the column name from position 0 up to
    some position [j], which need not be the end of the name; a pattern
    that compiles always gets an answer and one that does not raises
    [re.error].  With the engine of the fragment, the pattern [^id_]
    matches [id_a] and [id_b] but not [feature_id]; [id_] matches
    [id_a] without matching all of it; [id] does not match [feature_id]
    although a search finds it there. *)
Theorem C5_regex_matches_from_position_0 :
  (forall (engine : ReEngine) (self : StackTransform) (P C : string),
      regex_enabled self = true ->
      (fst (_matches_pattern P C self) = Ok true <->
       exists r j, re_compile P = Some r /\ j <= String.length C /\
                   re_span r C 0 j = true) /\
      (forall r, re_compile P = Some r ->
                 exists b, fst (_matches_pattern P C self) = Ok b) /\
      (re_compile P = None ->
       fst (_matches_pattern P C self) = Raise re_error)) /\
  (let matches := fun P C =>
         fst (@_matches_pattern MiniRe.engine P C Sample.by_regex) in
   matches "^id_" "id_a" = Ok true /\
   matches "^id_" "id_b" = Ok true /\
   matches "^id_" "feature_id" = Ok false /\
   matches "id_" "id_a" = Ok true /\
   @re.fullmatch MiniRe.engine "id_" "id_a" = Ok None /\
   matches "id" "feature_id" = Ok false /\
   @re.search MiniRe.engine "id" "feature_id" = Ok (Some MatchObject)).
Proof.
  split.
  - intros engine self P C Hmode.
    rewrite (matches_regex self P C Hmode). cbn [fst]. repeat split.
    + intros H. apply re_match_true.
      destruct (re.match_ P C) as [[[]|]|]; [reflexivity | discriminate..].
    + intros H. apply re_match_true in H. now rewrite H.
    + intros r Hr. unfold re.match_. rewrite Hr. eauto.
    + intros Hr. unfold re.match_. now rewrite Hr.
  - vm_compute. repeat split.
Qed.

Lemma C5_witness :
  regex_enabled Sample.by_regex = true /\
  (fst (@_matches_pattern MiniRe.engine "^id_" "id_a" Sample.by_regex) = Ok true <->
   exists r j, @re_compile MiniRe.engine "^id_" = Some r /\
               j <= String.length "id_a" /\
               @re_span MiniRe.engine r "id_a" 0 j = true).
Proof.
  split; [reflexivity|].
  exact (proj1 (proj1 C5_regex_matches_from_position_0 MiniRe.engine
                  Sample.by_regex "^id_" "id_a" eq_refl)).
Defined.

Lemma wildcard_match_outer (pre mid suf C : string) :
  Py.contains "*" pre = false -> Py.contains "*" suf = false ->
  wildcard_match (pre ++ String "*" (mid ++ String "*" suf)) C =
    Py.startswith C pre && Py.endswith C suf.
Proof.
  intros Hpre Hsuf. unfold wildcard_match.
  rewrite (before_first_append "*" pre _ Hpre).
  replace (pre ++ String "*" (mid ++ String "*" suf))
    with ((pre ++ String "*" mid) ++ String "*" suf)
    by (now rewrite append_assoc).
  now rewrite (after_last_append "*" _ suf Hsuf).
Qed.

(** The answer to a pattern [pre*mid*suf] does not depend on [mid]. *)
Lemma matches_middle_ignored {engine : ReEngine} (self : StackTransform)
  (pre mid mid' suf C : string) :
  regex_enabled self = false ->
  Py.contains "*" pre = false -> Py.contains "*" suf = false ->
  _matches_pattern (pre ++ String "*" (mid ++ String "*" suf)) C self =
  _matches_pattern (pre ++ String "*" (mid' ++ String "*" suf)) C self.
Proof.
  intros Hmode Hpre Hsuf. rewrite !(matches_simple self _ C Hmode).
  destruct pre as [|c pre].
  - cbn [append Py.startswith Ascii.eqb Bool.eqb andb].
    change (String "*" (?x ++ String "*" suf))
      with (EmptyString ++ String "*" (x ++ String "*" suf)).
    now rewrite !(wildcard_match_outer EmptyString _ suf C Hpre Hsuf).
  - cbn [append Py.startswith Py.slice_from].
    simpl in Hpre. apply orb_false_iff in Hpre as [Hc Hpre].
    destruct (Ascii.eqb c "!").
    + cbn [andb]. now rewrite !(wildcard_match_outer pre _ suf C Hpre Hsuf).
    + cbn [andb].
      change (String c (pre ++ ?x)) with (String c pre ++ x).
      assert (Hcp : Py.contains "*" (String c pre) = false)
        by (simpl; now rewrite Hc, Hpre).
      now rewrite !(wildcard_match_outer (String c pre) _ suf C Hcp Hsuf).
Qed.

(** C6, amended: in simplified mode, for every column name [C] and
    every pattern [Q] that does not itself start with [!], the matcher
    answers on [!Q] the negation of its answer on [Q]. *)
Theorem C6_negation_complements :
  forall (engine : ReEngine) (self : StackTransform) (Q C : string),
    regex_enabled self = false ->
    Py.startswith Q "!" = false ->
    exists b, fst (_matches_pattern Q C self) = Ok b /\
              fst (_matches_pattern ("!" ++ Q) C self) = Ok (negb b).
Proof.
  intros engine self Q C Hmode HQ.
  exists (wildcard_match Q C).
  rewrite !(matches_simple self _ C Hmode), HQ. now split.
Qed.

Lemma C6_witness :
  regex_enabled Sample.simple = false /\
  Py.startswith "foo" "!" = false /\
  exists b,
    fst (@_matches_pattern MiniRe.engine "foo" "foo" Sample.simple) = Ok b /\
    fst (@_matches_pattern MiniRe.engine ("!" ++ "foo") "foo" Sample.simple)
      = Ok (negb b).
Proof.
  split; [reflexivity|]. split; [reflexivity|].
  exact (C6_negation_complements MiniRe.engine Sample.simple "foo" "foo"
           eq_refl eq_refl).
Defined.

(** C6 as stated fails on a pattern that starts with [!]: only one
    leading [!] is stripped, so on the column [bar] the matcher answers
    true both to [!foo] and to [!!foo]. *)
Lemma C6_counterexample :
  fst (@_matches_pattern MiniRe.engine "!foo" "bar" Sample.simple) = Ok true /\
  fst (@_matches_pattern MiniRe.engine ("!" ++ "!foo") "bar" Sample.simple)
    = Ok true /\
  ~ (forall (self : StackTransform) (Q C : string),
        regex_enabled self = false ->
        exists b,
          fst (@_matches_pattern MiniRe.engine Q C self) = Ok b /\
          fst (@_matches_pattern MiniRe.engine ("!" ++ Q) C self) = Ok (negb b)).
Proof.
  split; [reflexivity|]. split; [reflexivity|].
  intros H. destruct (H Sample.simple "!foo" "bar" eq_refl) as [b [H1 H2]].
  vm_compute in H1, H2. injection H1 as <-. discriminate.
Qed.

(** C7, amended: in simplified mode, for every pattern with two or
    more [*] and every column name [C]: when the pattern does not start
    with [!], the matcher answers true if and only if [C] starts with
    the text before the first [*] and ends with the text after the last
    [*]; when the pattern is [!Q], it answers the negation of that test
    on [Q]; in both cases what stands between the first and the last
    [*] has no effect. *)
Theorem C7_multiple_wildcards :
  forall (engine : ReEngine) (self : StackTransform) (P C : string),
    regex_enabled self = false ->
    2 <= count_char "*" P ->
    (Py.startswith P "!" = false ->
     (fst (_matches_pattern P C self) = Ok true <->
      Py.startswith C (before_first "*" P) = true /\
      Py.endswith C (after_last "*" P) = true) /\
     exists b, fst (_matches_pattern P C self) = Ok b) /\
    (forall Q, P = String "!" Q ->
       fst (_matches_pattern P C self) =
         Ok (negb (Py.startswith C (before_first "*" Q) &&
                   Py.endswith C (after_last "*" Q)))) /\
    (forall pre mid mid' suf,
       Py.contains "*" pre = false -> Py.contains "*" suf = false ->
       P = pre ++ String "*" (mid ++ String "*" suf) ->
       _matches_pattern (pre ++ String "*" (mid' ++ String "*" suf)) C self =
       _matches_pattern P C self).
Proof.
  intros engine self P C Hmode _. split; [|split].
  - intros Hneg. rewrite (matches_simple self P C Hmode), Hneg. cbn [fst].
    unfold wildcard_match. split; [split|eauto].
    + intros Heq. injection Heq as Heq. now apply andb_true_iff in Heq.
    + intros [H1 H2]. now rewrite H1, H2.
  - intros Q ->. now rewrite (matches_simple self _ C Hmode).
  - intros pre mid mid' suf Hpre Hsuf ->.
    now apply matches_middle_ignored.
Qed.

Lemma C7_witness :
  regex_enabled Sample.simple = false /\
  2 <= count_char "*" "id_*x*_a" /\
  Py.startswith "id_*x*_a" "!" = false /\
  (fst (@_matches_pattern MiniRe.engine "id_*x*_a" "id_a" Sample.simple) = Ok true
   <-> Py.startswith "id_a" (before_first "*" "id_*x*_a") = true /\
       Py.endswith "id_a" (after_last "*" "id_*x*_a") = true) /\
  fst (@_matches_pattern MiniRe.engine "!id_*x*_a" "id_a" Sample.simple)
    = Ok false /\
  @_matches_pattern MiniRe.engine "id_*yy*_a" "id_a" Sample.simple =
  @_matches_pattern MiniRe.engine "id_*x*_a" "id_a" Sample.simple.
Proof.
  split; [reflexivity|]. split; [simpl; lia|]. split; [reflexivity|].
  split; [|split].
  - exact (proj1 (proj1 (C7_multiple_wildcards MiniRe.engine Sample.simple
                           "id_*x*_a" "id_a" eq_refl (le_n 2)) eq_refl)).
  - exact (proj1 (proj2 (C7_multiple_wildcards MiniRe.engine Sample.simple
                           "!id_*x*_a" "id_a" eq_refl (le_n 2)))
                 "id_*x*_a" eq_refl).
  - exact (proj2 (proj2 (C7_multiple_wildcards MiniRe.engine Sample.simple
                           "id_*x*_a" "id_a" eq_refl (le_n 2)))
                 "id_" "x" "yy" "_a" eq_refl eq_refl eq_refl).
Defined.

(** C7 as stated fails on a negated pattern: [!a*b*c] has two [*], and
    the matcher answers true on the column [zzz], which starts neither
    with [!a] nor with [a]. *)
Lemma C7_counterexample :
  fst (@_matches_pattern MiniRe.engine "!a*b*c" "zzz" Sample.simple) = Ok true /\
  2 <= count_char "*" "!a*b*c" /\
  before_first "*" "!a*b*c" = "!a" /\
  Py.startswith "zzz" "!a" = false /\ Py.startswith "zzz" "a" = false /\
  ~ (forall (self : StackTransform) (P C : string),
        regex_enabled self = false ->
        2 <= count_char "*" P ->
        (fst (@_matches_pattern MiniRe.engine P C self) = Ok true <->
         Py.startswith C (before_first "*" P) = true /\
         Py.endswith C (after_last "*" P) = true)).
Proof.
  split; [reflexivity|]. split; [simpl; lia|].
  split; [reflexivity|]. split; [reflexivity|]. split; [reflexivity|].
  intros H.
  assert (Hc : 2 <= count_char "*" "!a*b*c") by (simpl; lia).
  destruct (proj1 (H Sample.simple "!a*b*c" "zzz" eq_refl Hc) eq_refl)
    as [H1 _].
  discriminate.
Qed.

(** C8: in simplified mode the pattern [*] matches every column name,
    and so does the empty pattern. *)
Theorem C8_star_and_empty_match_everything :
  forall (engine : ReEngine) (self : StackTransform) (C : string),
    regex_enabled self = false ->
    fst (_matches_pattern "*" C self) = Ok true /\
    fst (_matches_pattern EmptyString C self) = Ok true.
Proof.
  intros engine self C Hmode.
  rewrite !(matches_simple self _ C Hmode). cbn [fst Py.startswith].
  unfold wildcard_match. simpl before_first. simpl after_last.
  now rewrite startswith_empty, endswith_empty.
Qed.

Lemma C8_witness :
  regex_enabled Sample.simple = false /\
  fst (@_matches_pattern MiniRe.engine "*" "feature" Sample.simple) = Ok true /\
  fst (@_matches_pattern MiniRe.engine EmptyString "feature" Sample.simple)
    = Ok true.
Proof.
  split; [reflexivity|].
  exact (C8_star_and_empty_match_everything MiniRe.engine Sample.simple
           "feature" eq_refl).
Defined.

(** ** Methods that only read *)

Local Open Scope list_scope.

Lemma run_reads_only {A : Type} (m : Method A) (self : StackTransform) :
  reads_only m -> m self = (fst (m self), self).
Proof. intros H. rewrite <- (H self) at 3. apply surjective_pairing. Qed.

Section Reading.
Context {A : Type} (f : A -> Method bool).
Hypothesis f_reads : forall x, reads_only (f x).

Lemma any_cons (x : A) (l : list A) (self : StackTransform) :
  any f (x :: l) self =
    match fst (f x self) with
    | Ok true => (Ok true, self)
    | Ok false => any f l self
    | Raise e => (Raise e, self)
    end.
Proof.
  cbn [any]. unfold bind, ret. rewrite (run_reads_only (f x) self (f_reads x)).
  cbn [fst]. now destruct (fst (f x self)) as [[|]|].
Qed.

Lemma any_reads (l : list A) : reads_only (any f l).
Proof.
  intros self. induction l as [|x l IH]; [reflexivity|].
  rewrite any_cons. now destruct (fst (f x self)) as [[|]|].
Qed.

(** When [any] answers, it answers the disjunction. *)
Lemma any_value (l : list A) (self : StackTransform) (b : bool) :
  fst (any f l self) = Ok b ->
  b = existsb (fun x => truth (fst (f x self))) l.
Proof.
  induction l as [|x l IH]; cbn [existsb].
  - intros H. now injection H.
  - rewrite any_cons. destruct (fst (f x self)) as [[|]|]; cbn [truth fst orb].
    + intros H. now injection H.
    + exact IH.
    + discriminate.
Qed.

Lemma any_false_iff (l : list A) (self : StackTransform) :
  fst (any f l self) = Ok false <->
  forall x, In x l -> fst (f x self) = Ok false.
Proof.
  induction l as [|x l IH].
  - split; [intros _ x [] | reflexivity].
  - rewrite any_cons. destruct (fst (f x self)) as [[|]|] eqn:Hx; cbn [fst].
    + split; [discriminate|]. intros H.
      specialize (H x (or_introl eq_refl)). congruence.
    + rewrite IH. split.
      * intros H y [<-|Hy]; [exact Hx | now apply H].
      * intros H y Hy. apply H. now right.
    + split; [discriminate|]. intros H.
      specialize (H x (or_introl eq_refl)). congruence.
Qed.

Lemma any_true (l : list A) (self : StackTransform) :
  fst (any f l self) = Ok true ->
  exists x, In x l /\ fst (f x self) = Ok true.
Proof.
  induction l as [|x l IH]; [discriminate|].
  rewrite any_cons. destruct (fst (f x self)) as [[|]|] eqn:Hx; cbn [fst].
  - intros _. exists x. split; [now left | exact Hx].
  - intros H. destruct (IH H) as [y [Hy Hfy]]. exists y. split; [now right | exact Hfy].
  - discriminate.
Qed.

Lemma any_raise (l : list A) (self : StackTransform) (e : exn) :
  fst (any f l self) = Raise e ->
  exists x, In x l /\ fst (f x self) = Raise e.
Proof.
  induction l as [|x l IH]; [discriminate|].
  rewrite any_cons. destruct (fst (f x self)) as [[|]|] eqn:Hx; cbn [fst].
  - discriminate.
  - intros H. destruct (IH H) as [y [Hy Hfy]]. exists y. split; [now right | exact Hfy].
  - intros H. injection H as ->. exists x. split; [now left | exact Hx].
Qed.

Lemma any_total (l : list A) (self : StackTransform) :
  (forall x, In x l -> exists b, fst (f x self) = Ok b) ->
  exists b, fst (any f l self) = Ok b.
Proof.
  induction l as [|x l IH]; intros H.
  - now exists false.
  - rewrite any_cons. destruct (H x (or_introl eq_refl)) as [b ->].
    destruct b; [now exists true|].
    apply IH. intros y Hy. apply H. now right.
Qed.

Lemma comprehension_cons (x : A) (l : list A) (self : StackTransform) :
  comprehension f (x :: l) self =
    match fst (f x self) with
    | Ok b =>
        match comprehension f l self with
        | (Ok rest, self') => (Ok (if b then x :: rest else rest), self')
        | (Raise e, self') => (Raise e, self')
        end
    | Raise e => (Raise e, self)
    end.
Proof.
  cbn [comprehension]. unfold bind at 1.
  rewrite (run_reads_only (f x) self (f_reads x)).
  destruct (fst (f x self)) as [b|e]; [|reflexivity].
  unfold bind, ret. now destruct (comprehension f l self) as [[rest|e] self'].
Qed.

Lemma comprehension_reads (l : list A) : reads_only (comprehension f l).
Proof.
  intros self. induction l as [|x l IH]; [reflexivity|].
  rewrite comprehension_cons. destruct (fst (f x self)); [|reflexivity].
  now destruct (comprehension f l self) as [[rest|e] self'].
Qed.

(** When the comprehension returns, it returns the elements that pass
    the test, in order. *)
Lemma comprehension_value (l sel : list A) (self : StackTransform) :
  fst (comprehension f l self) = Ok sel ->
  sel = filter (fun x => truth (fst (f x self))) l /\
  forall x, In x l -> exists b, fst (f x self) = Ok b.
Proof.
  revert sel. induction l as [|x l IH]; intros sel.
  - intros H. injection H as <-. split; [reflexivity | intros x []].
  - rewrite comprehension_cons. destruct (fst (f x self)) as [b|e] eqn:Hx.
    + destruct (comprehension f l self) as [[rest|e] self'] eqn:Hl; cbn [fst].
      * intros H. injection H as <-. destruct (IH rest eq_refl) as [-> Hall].
        split.
        -- cbn [filter]. rewrite Hx. reflexivity.
        -- intros y [<-|Hy]; [eauto | now apply Hall].
      * discriminate.
    + discriminate.
Qed.

Lemma comprehension_total (l : list A) (self : StackTransform) :
  (forall x, In x l -> exists b, fst (f x self) = Ok b) ->
  fst (comprehension f l self) = Ok (filter (fun x => truth (fst (f x self))) l).
Proof.
  induction l as [|x l IH]; intros H; [reflexivity|].
  rewrite comprehension_cons. destruct (H x (or_introl eq_refl)) as [b Hb].
  rewrite Hb. specialize (IH (fun y Hy => H y (or_intror Hy))).
  destruct (comprehension f l self) as [[rest|e] self']; cbn [fst] in *.
  - injection IH as ->. cbn [filter]. now rewrite Hb.
  - discriminate.
Qed.

Lemma comprehension_raise (l : list A) (self : StackTransform) (e : exn) :
  fst (comprehension f l self) = Raise e ->
  exists x, In x l /\ fst (f x self) = Raise e.
Proof.
  induction l as [|x l IH]; [discriminate|].
  rewrite comprehension_cons. destruct (fst (f x self)) as [b|e'] eqn:Hx.
  - destruct (comprehension f l self) as [[rest|e'] self']; cbn [fst] in *.
    + discriminate.
    + intros H. destruct (IH H) as [y [Hy Hfy]]. exists y.
      split; [now right | exact Hfy].
  - cbn [fst]. intros H. injection H as ->. exists x. split; [now left | exact Hx].
Qed.

End Reading.

(** ** The column selection *)

Section Selection.
Context {V : Type} {engine : ReEngine}.

Lemma any_pattern_run (column : string) (self : StackTransform) :
  any_pattern_matches column self =
    any (fun pattern => _matches_pattern pattern column) (columns_names self) self.
Proof. reflexivity. Qed.

Lemma matcher_reads (column pattern : string) :
  reads_only (_matches_pattern pattern column).
Proof. intros self. apply matches_state. Qed.

Lemma any_pattern_reads (column : string) : reads_only (any_pattern_matches column).
Proof.
  intros self. rewrite any_pattern_run.
  exact (any_reads _ (matcher_reads column) _ self).
Qed.

Lemma any_pattern_value (column : string) (self : StackTransform) (b : bool) :
  fst (any_pattern_matches column self) = Ok b ->
  b = existsb (fun pattern => matches_b self pattern column) (columns_names self).
Proof.
  rewrite any_pattern_run. intros Hany.
  exact (any_value _ (matcher_reads column) _ _ _ Hany).
Qed.

Lemma any_pattern_false_iff (column : string) (self : StackTransform) :
  fst (any_pattern_matches column self) = Ok false <->
  forall pattern, In pattern (columns_names self) ->
                  fst (_matches_pattern pattern column self) = Ok false.
Proof.
  rewrite any_pattern_run. exact (any_false_iff _ (matcher_reads column) _ _).
Qed.

Lemma any_pattern_total (column : string) (self : StackTransform) :
  (forall pattern, In pattern (columns_names self) ->
     exists b, fst (_matches_pattern pattern column self) = Ok b) ->
  exists b, fst (any_pattern_matches column self) = Ok b.
Proof.
  rewrite any_pattern_run. exact (any_total _ (matcher_reads column) _ _).
Qed.

Lemma any_pattern_raise (column : string) (self : StackTransform) (e : exn) :
  fst (any_pattern_matches column self) = Raise e ->
  exists pattern, In pattern (columns_names self) /\
                  fst (_matches_pattern pattern column self) = Raise e.
Proof.
  rewrite any_pattern_run. exact (any_raise _ (matcher_reads column) _ _ _).
Qed.

Lemma transform_columns_reads (df : DataFrame V) :
  reads_only (transform_columns df).
Proof. apply (comprehension_reads any_pattern_matches any_pattern_reads). Qed.

(** When the selection returns, it returns the matching columns. *)
Lemma transform_columns_value (df : DataFrame V) (self : StackTransform)
  (sel : list string) :
  fst (transform_columns df self) = Ok sel ->
  sel = matching_columns self (columns df).
Proof.
  intros H.
  apply (comprehension_value any_pattern_matches any_pattern_reads) in H
    as [-> Hall].
  unfold matching_columns. apply filter_ext_in. intros c Hc.
  destruct (Hall c Hc) as [b Hb]. rewrite Hb. cbn [truth].
  now apply any_pattern_value.
Qed.

(** The selection returns as soon as the matcher answers on every
    pattern and column. *)
Lemma transform_columns_total (df : DataFrame V) (self : StackTransform) :
  (forall pattern column,
     In pattern (columns_names self) -> In column (columns df) ->
     exists b, fst (_matches_pattern pattern column self) = Ok b) ->
  fst (transform_columns df self) = Ok (matching_columns self (columns df)).
Proof.
  intros Hall.
  assert (Htest : forall c, In c (columns df) ->
                            exists b, fst (any_pattern_matches c self) = Ok b).
  { intros c Hc. apply any_pattern_total. intros p Hp. now apply Hall. }
  unfold transform_columns.
  rewrite (comprehension_total any_pattern_matches any_pattern_reads _ _ Htest).
  f_equal. unfold matching_columns. apply filter_ext_in. intros c Hc.
  destruct (Htest c Hc) as [b Hb]. rewrite Hb. cbn [truth].
  now apply any_pattern_value.
Qed.

(** An exception of the selection is an exception of the matcher. *)
Lemma transform_columns_raise (df : DataFrame V) (self : StackTransform)
  (e : exn) :
  fst (transform_columns df self) = Raise e ->
  exists pattern column,
    In pattern (columns_names self) /\ In column (columns df) /\
    fst (_matches_pattern pattern column self) = Raise e.
Proof.
  intros H.
  apply (comprehension_raise any_pattern_matches any_pattern_reads) in H
    as [c [Hc Hraise]].
  apply any_pattern_raise in Hraise as [p [Hp Hraise]]. now exists p, c.
Qed.

(** The selection is empty exactly when the matcher answers false on
    every pattern and column. *)
Lemma transform_columns_empty_iff (df : DataFrame V) (self : StackTransform) :
  fst (transform_columns df self) = Ok [] <->
  forall pattern column,
    In pattern (columns_names self) -> In column (columns df) ->
    fst (_matches_pattern pattern column self) = Ok false.
Proof.
  split.
  - intros H p c Hp Hc.
    pose proof (comprehension_value any_pattern_matches any_pattern_reads
                  _ _ _ H) as [Hnil Hall].
    destruct (Hall c Hc) as [b Hb].
    assert (Hin : ~ In c (filter (fun x => truth (fst (any_pattern_matches x self)))
                                 (columns df)))
      by (rewrite <- Hnil; intros []).
    rewrite filter_In, Hb in Hin. cbn [truth] in Hin.
    destruct b; [exfalso; apply Hin; now split|].
    now apply (any_pattern_false_iff c self).
  - intros Hall.
    rewrite transform_columns_total.
    + f_equal. unfold matching_columns.
      induction (columns df) as [|c l IH]; [reflexivity|].
      cbn [filter].
      replace (existsb (fun p => matches_b self p c) (columns_names self))
        with false.
      * apply IH. intros p c' Hp Hc'. apply Hall; [exact Hp | now right].
      * symmetry. apply not_true_is_false. intros Hex.
        apply existsb_exists in Hex as [p [Hp Hm]]. unfold matches_b in Hm.
        rewrite (Hall p c Hp (or_introl eq_refl)) in Hm. discriminate.
    + intros p c Hp Hc. exists false. now apply Hall.
Qed.

End Selection.

(** ** Data frames *)

Lemma index_of_nth_error (c : string) (l : list string) :
  In c l -> nth_error l (index_of c l) = Some c.
Proof.
  induction l as [|x l IH]; [intros []|].
  intros Hin. cbn [index_of]. destruct (String.eqb_spec x c) as [->|Hne].
  - reflexivity.
  - destruct Hin as [Heq|Hin]; [congruence | exact (IH Hin)].
Qed.

Lemma flat_map_length_constant {A B : Type} (f : A -> list B) (l : list A)
  (n : nat) :
  (forall x, List.length (f x) = n) ->
  List.length (flat_map f l) = List.length l * n.
Proof.
  intros Hf. induction l as [|x l IH]; [reflexivity|].
  cbn [flat_map List.length]. rewrite length_app, Hf, IH. lia.
Qed.

Section Frames.
Context {V : Type} {session : NameResolution}.

Lemma resolve_all_alone (schema names : list string) :
  (forall c, In c names -> candidates 0 schema c = [index_of c schema]) ->
  resolve_all schema names = Ok (map (fun c => index_of c schema) names).
Proof.
  induction names as [|c names IH]; intros Hin; [reflexivity|].
  cbn [resolve_all map]. unfold resolve at 1.
  rewrite (Hin c (or_introl eq_refl)).
  now rewrite (IH (fun c' Hc' => Hin c' (or_intror Hc'))).
Qed.

Lemma resolve_raise (schema : list string) (c : string) (e : exn) :
  resolve schema c = Raise e -> exists why, e = AnalysisException why.
Proof.
  unfold resolve. destruct (candidates 0 schema c) as [|i [|j l]];
    intros H; try discriminate; injection H as <-; eauto.
Qed.

Lemma resolve_all_raise (schema names : list string) (e : exn) :
  resolve_all schema names = Raise e -> exists why, e = AnalysisException why.
Proof.
  induction names as [|c names IH]; [discriminate|].
  cbn [resolve_all]. destruct (resolve schema c) as [i|e'] eqn:Hc.
  - destruct (resolve_all schema names) as [idxs|e'']; [discriminate|].
    intros H. injection H as <-. now apply IH.
  - intros H. injection H as <-. exact (resolve_raise schema c e' Hc).
Qed.

Lemma resolve_all_length (schema names : list string) (idxs : list nat) :
  resolve_all schema names = Ok idxs -> List.length idxs = List.length names.
Proof.
  revert idxs. induction names as [|c names IH]; intros idxs.
  - intros H. now injection H as <-.
  - cbn [resolve_all]. destruct (resolve schema c) as [i|e]; [|discriminate].
    destruct (resolve_all schema names) as [l|e]; [|discriminate].
    intros H. injection H as <-. cbn [List.length]. now rewrite (IH l eq_refl).
Qed.

(** The analysis of an array raises nothing but the analyser's
    exception. *)
Lemma analyse_array_raise (df : DataFrame V) (names : list string) (e : exn) :
  analyse_array df names = Raise e -> exists why, e = AnalysisException why.
Proof.
  unfold analyse_array.
  assert (Hbeyond :
    match array_beyond (sparkSession df) (dtypes df) names with
    | inl why => Raise (AnalysisException why)
    | inr (t, element) =>
        Ok (t, fun row : Row V => map (element row) (seq 0 (List.length names)))
    end = Raise e -> exists why, e = AnalysisException why).
  { destruct (array_beyond (sparkSession df) (dtypes df) names) as [why|[t f]];
      [|discriminate]. intros H. injection H as <-. eauto. }
  destruct (existsb is_star names).
  { destruct (star_beyond (sparkSession df) (dtypes df) names) as [why|[t f]];
      [|discriminate]. intros H. injection H as <-. eauto. }
  destruct (forallb plain names); [|exact Hbeyond].
  destruct (resolve_all (columns df) names) as [idxs|e'] eqn:Hres.
  - destruct (map (type_at (dtypes df)) idxs) as [|t ts]; [exact Hbeyond|].
    destruct (forallb (String.eqb t) ts); [discriminate | exact Hbeyond].
  - intros H. injection H as <-. exact (resolve_all_raise _ _ _ Hres).
Qed.

Lemma star_free_existsb (names : list string) :
  star_free names -> existsb is_star names = false.
Proof.
  intros Hfree. apply not_true_is_false. intros H.
  apply existsb_exists in H as [c [Hc Hstar]].
  rewrite (Hfree c Hc) in Hstar. discriminate.
Qed.

Lemma plain_not_star (c : string) : plain c = true -> is_star c = false.
Proof.
  unfold plain, is_star. intros H.
  apply andb_true_iff in H as [H _]. apply andb_true_iff in H as [H Hdot].
  apply andb_true_iff in H as [_ Hstar].
  apply negb_true_iff in Hdot, Hstar. rewrite Hstar. cbn [orb].
  apply not_true_is_false. intros Hends.
  apply endswith_spec in Hends as [t ->].
  change (t ++ ".*")%string with (t ++ String "." "*")%string in Hdot.
  rewrite contains_append_sep in Hdot. discriminate.
Qed.

(** The array has one element per name, when no name is a star. *)
Lemma analyse_array_length (df : DataFrame V) (names : list string)
  (t : DataType) (elements : Row V -> list (option V)) :
  star_free names ->
  analyse_array df names = Ok (t, elements) ->
  forall row, List.length (elements row) = List.length names.
Proof.
  intros Hfree. unfold analyse_array. rewrite (star_free_existsb names Hfree).
  assert (Hbeyond :
    match array_beyond (sparkSession df) (dtypes df) names with
    | inl why => Raise (AnalysisException why)
    | inr (t, element) =>
        Ok (t, fun row : Row V => map (element row) (seq 0 (List.length names)))
    end = Ok (t, elements) ->
    forall row, List.length (elements row) = List.length names).
  { destruct (array_beyond (sparkSession df) (dtypes df) names) as [why|[t' f]];
      [discriminate|]. intros H. injection H as _ <-. intros row.
    now rewrite length_map, length_seq. }
  destruct (forallb plain names); [|exact Hbeyond].
  destruct (resolve_all (columns df) names) as [idxs|e'] eqn:Hres;
    [|discriminate].
  apply resolve_all_length in Hres.
  destruct (map (type_at (dtypes df)) idxs) as [|t' ts]; [exact Hbeyond|].
  destruct (forallb (String.eqb t') ts); [|exact Hbeyond].
  intros H. injection H as _ <-. intros row. unfold array_of.
  now rewrite length_map.
Qed.

(** The array of columns that can be put in one array as they are:
    its elements are the cells of the row under these columns. *)
Lemma analyse_array_stackable (df : DataFrame V) (c : string)
  (names : list string) :
  stackable df (c :: names) ->
  analyse_array df (c :: names) =
    Ok (dtype_of df c,
        array_of (map (fun d => index_of d (columns df)) (c :: names))).
Proof.
  intros [Halone Htype]. unfold analyse_array.
  rewrite star_free_existsb
    by (intros d Hd; exact (plain_not_star d (proj1 (Halone d Hd)))).
  replace (forallb plain (c :: names)) with true.
  - rewrite (resolve_all_alone (columns df) (c :: names)
               (fun d Hd => proj2 (Halone d Hd))).
    rewrite map_map. cbn [map]. fold (dtype_of df c).
    replace (forallb (String.eqb (dtype_of df c))
               (map (fun d => type_at (dtypes df) (index_of d (columns df)))
                    names)) with true; [reflexivity|].
    symmetry. apply forallb_forall. intros t Ht.
    apply in_map_iff in Ht as [d [<- Hd]]. apply String.eqb_eq.
    apply (Htype c d); [now left | now right].
  - symmetry. apply forallb_forall. intros d Hd. exact (proj1 (Halone d Hd)).
Qed.

(** [withColumn] raises nothing but the analyser's exception. *)
Lemma withColumn_raise (df : DataFrame V) (colName : string) (col : Generator)
  (e : exn) :
  withColumn df colName col = Raise e -> exists why, e = AnalysisException why.
Proof.
  destruct col as [[names]]. unfold withColumn.
  destruct (analyse_array df names) as [[t elements]|e'] eqn:Harr.
  - destruct (candidates 0 (columns df) colName) as [|i [|j l]];
      try discriminate.
    destruct (generators_beyond _ _ _ _ _) as [why|rows']; [|discriminate].
    intros H. injection H as <-. eauto.
  - intros H. injection H as <-. exact (analyse_array_raise _ _ _ Harr).
Qed.

Lemma columns_append (schema : list (string * DataType)) (n : string)
  (t : DataType) :
  map fst (schema ++ [(n, t)]) = map fst schema ++ [n].
Proof. now rewrite map_app. Qed.

Lemma columns_rename (schema : list (string * DataType)) (n : string)
  (t : DataType) :
  map fst (rename_fields schema n t) =
  map (fun field => if resolver field n then n else field) (map fst schema).
Proof.
  unfold rename_fields. rewrite !map_map. apply map_ext. intros [f ft].
  cbn [fst]. now destruct (resolver f n).
Qed.

(** With a name that no column answers to, [withColumn] appends the
    column: one output row per selected column and input row. *)
Lemma withColumn_new_column (df : DataFrame V) (colName c : string)
  (names : list string) :
  stackable df (c :: names) ->
  candidates 0 (columns df) colName = [] ->
  exists out,
    withColumn df colName (explode (array (c :: names))) = Ok out /\
    columns out = columns df ++ [colName] /\
    dtypes out = dtypes df ++ [(colName, dtype_of df c)] /\
    rows out =
      flat_map (fun row =>
                  map (fun d => row ++ [cell (columns df) row d]) (c :: names))
               (rows df).
Proof.
  intros Hstack Hnew. unfold withColumn.
  rewrite (analyse_array_stackable df c names Hstack), Hnew.
  eexists. split; [reflexivity|]. cbn [dtypes rows].
  split; [apply columns_append|]. split; [reflexivity|].
  apply flat_map_ext. intros row. unfold array_of. now rewrite !map_map.
Qed.


End Frames.

(** ** [transform] *)

Section Transform.
Context {V : Type} {session : NameResolution} {engine : ReEngine}.

(** The result of [transform], read off the selection; the instance is
    left as it was. *)
Lemma transform_run (df : DataFrame V) (self : StackTransform) :
  transform df self =
    (match fst (transform_columns df self) with
     | Raise e => Raise e
     | Ok [] =>
         Raise (ValueError ("Columns not found, columns in df: "
                              ++ Py.repr_list (columns df)))
     | Ok (c :: sel) =>
         match name_of (_parent self) with
         | Raise e => Raise e
         | Ok n => withColumn df n (explode (array (c :: sel)))
         end
     end, self).
Proof.
  unfold transform, bind.
  rewrite (run_reads_only _ self (transform_columns_reads df)).
  destruct (fst (transform_columns df self)) as [[|c sel]|e]; try reflexivity.
  unfold getattr, lift. now destruct (name_of (_parent self)).
Qed.


(** The matcher raises nothing but [re.error], and only in regex mode
    on a pattern that does not compile. *)
Lemma matcher_raise (self : StackTransform) (P C : string) (e : exn) :
  fst (_matches_pattern P C self) = Raise e ->
  e = re_error /\ regex_enabled self = true /\ re_compile P = None.
Proof.
  destruct (regex_enabled self) eqn:Hmode.
  - rewrite (matches_regex self P C Hmode). unfold re.match_. cbn [fst].
    destruct (re_compile P); [discriminate|].
    intros H. injection H as <-. now repeat split.
  - rewrite (matches_simple self P C Hmode). discriminate.
Qed.

Lemma matcher_answers (self : StackTransform) (P C : string) :
  (regex_enabled self = true -> re_compile P <> None) ->
  exists b, fst (_matches_pattern P C self) = Ok b.
Proof.
  intros Hok. destruct (fst (_matches_pattern P C self)) as [b|e] eqn:Hm.
  - now exists b.
  - apply matcher_raise in Hm as [_ [Hmode Hnone]]. now destruct (Hok Hmode).
Qed.

Lemma matching_columns_in (self : StackTransform) (schema : list string)
  (c : string) :
  In c (matching_columns self schema) <->
  In c schema /\
  exists p, In p (columns_names self) /\
            fst (_matches_pattern p c self) = Ok true.
Proof.
  unfold matching_columns. rewrite filter_In, existsb_exists.
  split; intros [Hc [p [Hp Hm]]]; (split; [exact Hc|]); exists p;
    (split; [exact Hp|]); unfold matches_b in *.
  - now destruct (fst (_matches_pattern p c self)) as [[|]|].
  - now rewrite Hm.
Qed.

Lemma matching_columns_subsequence (self : StackTransform)
  (schema : list string) :
  subsequence (matching_columns self schema) schema.
Proof.
  unfold matching_columns. induction schema as [|c l IH]; [constructor|].
  cbn [filter]. destruct (existsb _ _); now constructor.
Qed.

End Transform.

(** ** What the result depends on *)

Lemma existsb_permutation {A : Type} (f : A -> bool) (l l' : list A) :
  Permutation l l' -> existsb f l = existsb f l'.
Proof.
  induction 1 as [|x l l' _ IH|x y l|l l' l'' _ IH1 _ IH2]; cbn [existsb].
  - reflexivity.
  - now rewrite IH.
  - now destruct (f x), (f y).
  - now rewrite IH1.
Qed.

Lemma existsb_pointwise {A : Type} (f g : A -> bool) (l : list A) :
  (forall x, f x = g x) -> existsb f l = existsb g l.
Proof.
  intros H. induction l as [|x l IH]; [reflexivity|].
  cbn [existsb]. now rewrite H, IH.
Qed.

Section Dependence.
Context {V : Type} {session : NameResolution} {engine : ReEngine}.

(** Of the instance, the matcher reads the regex flag only. *)
Lemma matcher_depends_on_mode (self self' : StackTransform) (P C : string) :
  regex_enabled self' = regex_enabled self ->
  fst (_matches_pattern P C self') = fst (_matches_pattern P C self).
Proof.
  intros Hmode. destruct (regex_enabled self) eqn:Hm.
  - now rewrite (matches_regex self' P C Hmode), (matches_regex self P C Hm).
  - now rewrite (matches_simple self' P C Hmode), (matches_simple self P C Hm).
Qed.

Lemma matching_columns_permutation (self self' : StackTransform)
  (schema : list string) :
  Permutation (columns_names self) (columns_names self') ->
  regex_enabled self' = regex_enabled self ->
  matching_columns self' schema = matching_columns self schema.
Proof.
  intros Hperm Hmode. unfold matching_columns. apply filter_ext. intros c.
  rewrite <- (existsb_permutation _ _ _ Hperm).
  apply existsb_pointwise. intros p. unfold matches_b.
  now rewrite (matcher_depends_on_mode self self' p c Hmode).
Qed.

Lemma any_depends (self self' : StackTransform) (C : string)
  (l : list string) :
  regex_enabled self' = regex_enabled self ->
  fst (any (fun p => _matches_pattern p C) l self') =
  fst (any (fun p => _matches_pattern p C) l self).
Proof.
  intros Hmode. induction l as [|p l IH]; [reflexivity|].
  rewrite !(any_cons _ (matcher_reads C)).
  rewrite (matcher_depends_on_mode self self' p C Hmode).
  now destruct (fst (_matches_pattern p C self)) as [[|]|].
Qed.

(** Of the instance, the selection reads the patterns and the regex
    flag only. *)
Lemma transform_columns_depends (df : DataFrame V)
  (self self' : StackTransform) :
  columns_names self' = columns_names self ->
  regex_enabled self' = regex_enabled self ->
  fst (transform_columns df self') = fst (transform_columns df self).
Proof.
  intros Hnames Hmode. unfold transform_columns.
  induction (columns df) as [|c l IH]; [reflexivity|].
  rewrite !(comprehension_cons _ any_pattern_reads).
  rewrite !any_pattern_run, Hnames, (any_depends self self' c _ Hmode).
  destruct (fst (any _ (columns_names self) self)) as [b|e]; [|reflexivity].
  rewrite (run_reads_only _ self' (comprehension_reads _ any_pattern_reads l)).
  rewrite (run_reads_only _ self (comprehension_reads _ any_pattern_reads l)).
  rewrite IH. now destruct (fst (comprehension _ l self)).
Qed.

End Dependence.

(** C4, amended: whenever the selection returns, the selected columns
    are exactly the columns of the table that match at least one
    pattern, in the order of the table (they are a subsequence of its
    column list); every reordering of the patterns for which the
    selection returns too selects the same columns in the same order.
    The selection returns whenever every pattern has an answer, which
    is always so in simplified mode and, in regex mode, when every
    pattern compiles; then every reordering of the patterns returns,
    with the same columns. *)
Theorem C4_selected_columns :
  forall (V : Type) (engine : ReEngine) (df : DataFrame V)
         (self : StackTransform),
    ((regex_enabled self = true ->
      forall p, In p (columns_names self) -> re_compile p <> None) ->
     exists sel, fst (transform_columns df self) = Ok sel) /\
    (forall sel, fst (transform_columns df self) = Ok sel ->
       sel = matching_columns self (columns df) /\
       subsequence sel (columns df) /\
       (forall c, In c sel <->
                  In c (columns df) /\
                  exists p, In p (columns_names self) /\
                            fst (_matches_pattern p c self) = Ok true) /\
       (forall self' sel',
          Permutation (columns_names self) (columns_names self') ->
          regex_enabled self' = regex_enabled self ->
          fst (transform_columns df self') = Ok sel' ->
          sel' = sel)) /\
    ((regex_enabled self = true ->
      forall p, In p (columns_names self) -> re_compile p <> None) ->
     forall self',
       Permutation (columns_names self) (columns_names self') ->
       regex_enabled self' = regex_enabled self ->
       fst (transform_columns df self') = fst (transform_columns df self)).
Proof.
  intros V engine df self.
  assert (Htotal : forall s : StackTransform,
             (regex_enabled s = true ->
              forall p, In p (columns_names s) -> re_compile p <> None) ->
             fst (transform_columns df s) = Ok (matching_columns s (columns df))).
  { intros s Hok. apply transform_columns_total. intros p c Hp _.
    apply matcher_answers. intros Hmode. now apply Hok. }
  split; [|split].
  - intros Hok. exists (matching_columns self (columns df)). now apply Htotal.
  - intros sel Hsel. apply transform_columns_value in Hsel as ->.
    split; [reflexivity|]. split; [apply matching_columns_subsequence|].
    split; [intros c; apply matching_columns_in|].
    intros self' sel' Hperm Hmode Hsel'.
    apply transform_columns_value in Hsel' as ->.
    now apply matching_columns_permutation.
  - intros Hok self' Hperm Hmode.
    rewrite (Htotal self Hok), Htotal.
    + f_equal. now apply matching_columns_permutation.
    + intros Hmode' p Hp. apply Hok; [congruence|].
      apply (Permutation_in p (Permutation_sym Hperm) Hp).
Qed.

Lemma C4_witness :
  (exists sel, fst (@transform_columns Z MiniRe.engine Sample.df Sample.by_name)
               = Ok sel) /\
  fst (@transform_columns Z MiniRe.engine Sample.df Sample.by_name)
    = Ok ["id_a"; "id_b"] /\
  Permutation (columns_names Sample.by_name)
              (columns_names Sample.by_name_reversed) /\
  @matching_columns MiniRe.engine Sample.by_name_reversed (columns Sample.df)
    = ["id_a"; "id_b"].
Proof.
  split.
  - apply (proj1 (C4_selected_columns Z MiniRe.engine Sample.df Sample.by_name)).
    intros Hmode. discriminate Hmode.
  - split; [reflexivity|]. split; [apply perm_swap|].
    exact (proj2 (proj2 (proj2
             (proj1 (proj2 (C4_selected_columns Z MiniRe.engine
                              Sample.df Sample.by_name))
                    ["id_a"; "id_b"] eq_refl)))
             Sample.by_name_reversed
             (matching_columns Sample.by_name_reversed (columns Sample.df))
             (perm_swap _ _ _) eq_refl eq_refl).
Defined.

(** C4 as stated fails in regex mode, where the order of the patterns
    decides whether a malformed one is reached: on the table of the
    example the patterns [.*] and [(] select every column in this
    order, the first one matching every name before the second is
    compiled, and raise the regex engine's error in the other order. *)
Lemma C4_counterexample :
  Permutation (columns_names Sample.all_then_malformed)
              (columns_names Sample.malformed_then_all) /\
  regex_enabled Sample.malformed_then_all
    = regex_enabled Sample.all_then_malformed /\
  fst (@transform_columns Z MiniRe.engine Sample.df Sample.all_then_malformed)
    = Ok ["feature"; "id_a"; "id_b"]%string /\
  fst (@transform_columns Z MiniRe.engine Sample.df Sample.malformed_then_all)
    = Raise re_error /\
  MiniRe.parse "(" = MiniRe.Malformed.
Proof.
  split; [apply perm_swap|]. repeat split.
Qed.

(** C9: two calls of [transform] on the same table give the same
    result, each call leaves the instance as it was, and the result
    depends on the instance only through its patterns, its regex flag
    and the name of the feature it is bound to. *)
Theorem C9_transform_deterministic :
  forall (V : Type) (session : NameResolution) (engine : ReEngine)
         (df : DataFrame V) (self : StackTransform),
    (let (r1, self1) := transform df self in
     let (r2, self2) := transform df self1 in
     r1 = r2 /\ self1 = self /\ self2 = self) /\
    (forall self',
       columns_names self' = columns_names self ->
       regex_enabled self' = regex_enabled self ->
       option_map name (_parent self') = option_map name (_parent self) ->
       fst (transform df self') = fst (transform df self)).
Proof.
  intros V session engine df self. split.
  - rewrite (transform_run df self). rewrite (transform_run df self).
    now repeat split.
  - intros self' Hnames Hmode Hparent.
    rewrite (transform_run df self'), (transform_run df self). cbn [fst].
    rewrite (transform_columns_depends df self self' Hnames Hmode).
    replace (name_of (_parent self')) with (name_of (_parent self));
      [reflexivity|].
    destruct (_parent self) as [f|], (_parent self') as [f'|];
      try discriminate; [|reflexivity].
    cbn in Hparent. injection Hparent as Hn. cbn [name_of]. now rewrite Hn.
Qed.

Lemma C9_witness :
  fst (@transform Z caseInsensitiveResolution MiniRe.engine
         Sample.df Sample.by_name_again)
  = fst (@transform Z caseInsensitiveResolution MiniRe.engine
           Sample.df Sample.by_name).
Proof.
  exact (proj2 (C9_transform_deterministic Z caseInsensitiveResolution
                  MiniRe.engine Sample.df Sample.by_name)
               Sample.by_name_again eq_refl eq_refl eq_refl).
Defined.

(** C10: construction takes any list of patterns, the empty one
    included, without an error and without looking at them; on an
    instance built with no pattern, bound to a feature or not,
    [transform] raises the columns-not-found error on every table. *)
Theorem C10_no_pattern_selects_nothing :
  forall (V : Type) (session : NameResolution) (engine : ReEngine)
         (is_regex : bool) (blank : StackTransform) (df : DataFrame V),
    (forall names,
       __init__ names is_regex blank =
         (Ok tt, {| _parent := None;
                    columns_names := names;
                    regex_enabled := is_regex |})) /\
    (forall parent,
       let self := snd (set_parent parent (snd (__init__ [] is_regex blank))) in
       fst (transform df self) =
         Raise (ValueError ("Columns not found, columns in df: "
                              ++ Py.repr_list (columns df)))).
Proof.
  intros V session engine is_regex blank df. split; [reflexivity|].
  intros parent self. rewrite transform_run.
  replace (fst (transform_columns df self)) with (@Ok (list string) []);
    [reflexivity|].
  symmetry. apply transform_columns_empty_iff. intros p c [].
Qed.

(** ** The error message *)

Local Open Scope string_scope.



Local Open Scope list_scope.

Section Errors.
Context {V : Type} {session : NameResolution} {engine : ReEngine}.


End Errors.




(** C1, amended: for every input table and every instance bound to a
    feature named [N]: if the selection returns (no column reaches a
    malformed regular expression) with at least one column, if the
    selected columns can be put in one array as they are (their names
    are plain identifiers that each resolve to their own column and no
    other, and they have one data type), and if no column of the table
    already answers to the name [N], then [transform] returns the input
    table extended with one new column named [N], of the type of the
    selected columns, in which each row of the input is replaced by as
    many rows as there are selected columns, in their order: the k-th
    of them is the input row followed by its value in the k-th selected
    column.  The selected columns are those that match some pattern. *)
Theorem C1_transform_stacks_selected_columns :
  forall (V : Type) (session : NameResolution) (engine : ReEngine)
         (df : DataFrame V) (self : StackTransform) (feature : Feature)
         (sel : list string),
    _parent self = Some feature ->
    fst (transform_columns df self) = Ok sel ->
    sel <> [] ->
    stackable df sel ->
    candidates 0 (columns df) (name feature) = [] ->
    sel = matching_columns self (columns df) /\
    exists out,
      fst (transform df self) = Ok out /\
      columns out = columns df ++ [name feature] /\
      rows out =
        flat_map (fun row =>
                    map (fun c => row ++ [cell (columns df) row c]) sel)
                 (rows df) /\
      List.length (rows out) = List.length (rows df) * List.length sel /\
      exists t, dtypes out = dtypes df ++ [(name feature, t)] /\
                forall c, In c sel -> dtype_of df c = t.
Proof.
  intros V session engine df self feature sel Hparent Hsel Hne Hstack Hnew.
  split; [now apply transform_columns_value|].
  destruct sel as [|c sel]; [congruence|].
  destruct (withColumn_new_column df (name feature) c sel Hstack Hnew)
    as [out [Hout [Hcols [Htypes Hrows]]]].
  exists out. split; [|split; [exact Hcols|split; [exact Hrows|split]]].
  - rewrite transform_run. cbn [fst]. rewrite Hsel, Hparent. exact Hout.
  - rewrite Hrows. apply flat_map_length_constant.
    intros row. apply length_map.
  - exists (dtype_of df c). split; [exact Htypes|].
    intros d Hd. apply (proj2 Hstack); [exact Hd | now left].
Qed.

Lemma C1_witness :
  exists out,
    fst (@transform Z caseInsensitiveResolution MiniRe.engine
           Sample.df Sample.by_name) = Ok out /\
    columns out = ["feature"; "id_a"; "id_b"; "stack_ids"]%string /\
    rows out = [[Some 100; Some 1; Some 2; Some 1];
                [Some 100; Some 1; Some 2; Some 2];
                [Some 120; Some 3; Some 4; Some 3];
                [Some 120; Some 3; Some 4; Some 4]]%Z.
Proof.
  destruct (C1_transform_stacks_selected_columns Z caseInsensitiveResolution
              MiniRe.engine Sample.df Sample.by_name Sample.stack_ids
              ["id_a"; "id_b"]%string eq_refl eq_refl)
    as [_ [out [Hout [Hcols [Hrows _]]]]].
  - discriminate.
  - split.
    + intros c [<-|[<-|[]]]; split; reflexivity.
    + intros c c' [<-|[<-|[]]] [<-|[<-|[]]]; reflexivity.
  - reflexivity.
  - exists out. split; [exact Hout|]. split; [exact Hcols | exact Hrows].
Defined.

(** C1 as stated fails in several ways.  When the table already has a
    column called as the feature, that column is replaced and none is
    added: the feature named [feature] leaves the example's table with
    its three columns, the first one overwritten.  In regex mode a
    malformed pattern makes [transform] raise although a column
    matches.  On a table with two columns of one name, the selected
    name is ambiguous and the analyser rejects the query.  Columns of
    types without a common type, here [bigint] and [boolean], cannot be
    put in one array; and a selected name with a dot is not taken as
    the name of the column: in both cases the analyser rejects the
    query. *)
Lemma C1_counterexample :
  (exists out,
     fst (@transform Z caseSensitiveResolution MiniRe.engine
            Sample.df Sample.overwriting) = Ok out /\
     columns out = ["feature"; "id_a"; "id_b"]%string /\
     rows out = [[Some 1; Some 1; Some 2];
                 [Some 2; Some 1; Some 2];
                 [Some 3; Some 3; Some 4];
                 [Some 4; Some 3; Some 4]]%Z) /\
  fst (@_matches_pattern MiniRe.engine "id_a" "id_a" Sample.overwriting)
    = Ok true /\
  fst (@transform Z caseSensitiveResolution MiniRe.engine
         Sample.df Sample.half_malformed) = Raise re_error /\
  fst (@_matches_pattern MiniRe.engine "id_a" "id_a" Sample.half_malformed)
    = Ok true /\
  fst (@transform Z caseSensitiveResolution MiniRe.engine
         Sample.twice Sample.by_id)
    = Raise (AnalysisException (AmbiguousReference "id")) /\
  fst (@_matches_pattern MiniRe.engine "id" "id" Sample.by_id) = Ok true /\
  fst (@transform (Z + bool) caseSensitiveResolution MiniRe.engine
         Sample.mixed Sample.by_name)
    = Raise (AnalysisException DataTypeMismatch) /\
  fst (@transform Z caseSensitiveResolution MiniRe.engine
         Sample.dotted Sample.by_id_dot)
    = Raise (AnalysisException (CannotResolve "id.a")) /\
  fst (@_matches_pattern MiniRe.engine "id.a" "id.a" Sample.by_id_dot) = Ok true.
Proof.
  split; [eexists; split; [reflexivity|]; split; reflexivity|].
  repeat split.
Qed.

(** * Further properties of the class *)

(** ** The announced column and the errors of [transform] *)

Section Outcome.
Context {V : Type} {session : NameResolution} {engine : ReEngine}.

Lemma candidates_resolves (k : nat) (schema : list string) (n : string)
  (i : nat) (l : list nat) :
  candidates k schema n = i :: l ->
  exists field, In field schema /\ resolver field n = true.
Proof.
  revert k. induction schema as [|f schema IH]; intros k; [discriminate|].
  cbn [candidates]. destruct (resolver f n) eqn:Hf.
  - intros _. exists f. split; [now left | exact Hf].
  - intros H. destruct (IH _ H) as [g [Hg Hres]].
    exists g. split; [now right | exact Hres].
Qed.

Lemma renamed_has_name (schema : list (string * DataType)) (n : string)
  (t : DataType) (i : nat) (l : list nat) :
  candidates 0 (map fst schema) n = i :: l ->
  In n (map fst (rename_fields schema n t)).
Proof.
  intros Hcand. rewrite columns_rename.
  destruct (candidates_resolves _ _ _ _ _ Hcand) as [f [Hf Hr]].
  apply in_map_iff. exists f. rewrite Hr. now split.
Qed.

(** What [withColumn] returns has a column of the given name.  When at
    most one column answered to that name, it has, together with the
    columns that answered, one column more than the input and, unless a
    star stands among the names, one row per input row and name. *)
Lemma withColumn_shape (df out : DataFrame V) (n : string)
  (names : list string) :
  withColumn df n (explode (array names)) = Ok out ->
  In n (columns out) /\
  (List.length (candidates 0 (columns df) n) <= 1 ->
   (star_free names ->
    List.length (rows out) = List.length (rows df) * List.length names) /\
   List.length (columns out) + List.length (candidates 0 (columns df) n)
   = S (List.length (columns df))).
Proof.
  unfold withColumn.
  destruct (analyse_array df names) as [[t elements]|e] eqn:Harr;
    [|discriminate].
  pose proof (fun Hfree => analyse_array_length df names t elements Hfree Harr)
    as Hlen.
  destruct (candidates 0 (columns df) n) as [|i [|j l]] eqn:Hcand.
  - intros H. injection H as <-. unfold columns. cbn [dtypes rows].
    rewrite columns_append. split; [apply in_or_app; right; now left|].
    intros _. split.
    + intros Hfree. apply flat_map_length_constant. intros row.
      now rewrite length_map, (Hlen Hfree).
    + rewrite length_app. cbn. lia.
  - intros H. injection H as <-. unfold columns. cbn [dtypes rows].
    split; [exact (renamed_has_name _ _ _ _ _ Hcand)|].
    intros _. split.
    + intros Hfree. apply flat_map_length_constant. intros row.
      now rewrite length_map, (Hlen Hfree).
    + rewrite columns_rename, !length_map. cbn. lia.
  - destruct (generators_beyond _ _ _ _ _) as [why|rows']; [discriminate|].
    intros H. injection H as <-. unfold columns. cbn [dtypes rows].
    split; [exact (renamed_has_name _ _ _ _ _ Hcand)|].
    cbn [List.length]. lia.
Qed.

(** The selection behind a table that [transform] returned. *)
Lemma transform_returns (df out : DataFrame V) (self : StackTransform) :
  fst (transform df self) = Ok out ->
  exists feature c sel,
    _parent self = Some feature /\
    matching_columns self (columns df) = c :: sel /\
    withColumn df (name feature) (explode (array (c :: sel))) = Ok out.
Proof.
  rewrite transform_run. cbn [fst].
  destruct (fst (transform_columns df self)) as [[|c sel]|e] eqn:Hsel;
    try discriminate.
  apply transform_columns_value in Hsel.
  destruct (_parent self) as [feature|]; [|discriminate].
  cbn [name_of]. intros H. now exists feature, c, sel.
Qed.

End Outcome.

(** X1: [output_columns] only reads the instance; it returns the name
    of the feature the instance is bound to and raises an attribute
    error on an unbound instance, which [transform] can then never turn
    into a table; and whenever [transform] returns a table, the name
    that [output_columns] returns is the name of one of its columns. *)
Theorem X1_output_columns_names_the_result_column :
  forall (V : Type) (session : NameResolution) (engine : ReEngine)
         (df : DataFrame V) (self : StackTransform),
    snd (output_columns self) = self /\
    (forall feature, _parent self = Some feature ->
       fst (output_columns self) = Ok (name feature)) /\
    (_parent self = None ->
     (exists msg, fst (output_columns self) = Raise (AttributeError msg)) /\
     forall out, fst (transform df self) <> Ok out) /\
    (forall out, fst (transform df self) = Ok out ->
       exists n, fst (output_columns self) = Ok n /\ In n (columns out)).
Proof.
  intros V session engine df self.
  split; [reflexivity|]. split; [|split].
  - intros feature Hparent. unfold output_columns, bind, getattr, lift.
    cbn. now rewrite Hparent.
  - intros Hparent. split.
    + unfold output_columns, bind, getattr, lift. cbn. rewrite Hparent. cbn. eauto.
    + intros out Hout.
      apply transform_returns in Hout as [feature [c [sel [Hp _]]]]. congruence.
  - intros out Hout.
    apply transform_returns in Hout as [feature [c [sel [Hp [_ Hwith]]]]].
    exists (name feature). split.
    + unfold output_columns, bind, getattr, lift. cbn. now rewrite Hp.
    + now apply withColumn_shape in Hwith.
Qed.

Lemma X1_witness :
  fst (output_columns Sample.by_name) = Ok "stack_ids"%string /\
  (exists msg, fst (output_columns Sample.unbound) = Raise (AttributeError msg)) /\
  exists n, fst (output_columns Sample.overwriting) = Ok n /\
            In n ["feature"; "id_a"; "id_b"]%string.
Proof.
  split; [|split].
  - exact (proj1 (proj2 (X1_output_columns_names_the_result_column
                           Z caseSensitiveResolution MiniRe.engine
                           Sample.df Sample.by_name))
                 Sample.stack_ids eq_refl).
  - exact (proj1 (proj1 (proj2 (proj2
             (X1_output_columns_names_the_result_column
                Z caseSensitiveResolution MiniRe.engine
                Sample.df Sample.unbound))) eq_refl)).
  - exact (proj2 (proj2 (proj2
             (X1_output_columns_names_the_result_column
                Z caseSensitiveResolution MiniRe.engine
                Sample.df Sample.overwriting))) _ eq_refl).
Defined.

(** X2: [transform] raises the attribute error exactly when the
    instance is not bound to a feature and the selection has returned
    at least one column: the selection is made, and its emptiness
    reported, before the name of the feature is read.  In simplified
    mode the matcher never raises (indexing the segments of a pattern
    cannot fail), so the selection always returns, and an unbound
    instance ends in the columns-not-found error when no column matches
    and in the attribute error otherwise. *)
Theorem X2_errors_of_transform :
  forall (V : Type) (session : NameResolution) (engine : ReEngine)
         (df : DataFrame V) (self : StackTransform),
    (forall msg,
       fst (transform df self) = Raise (AttributeError msg) <->
       msg = "'NoneType' object has no attribute 'name'"%string /\
       _parent self = None /\
       exists c sel, fst (transform_columns df self) = Ok (c :: sel)) /\
    (regex_enabled self = false ->
     (forall pattern column,
        exists b, fst (_matches_pattern pattern column self) = Ok b) /\
     fst (transform_columns df self)
       = Ok (matching_columns self (columns df)) /\
     (_parent self = None ->
      (matching_columns self (columns df) = [] /\
       fst (transform df self)
         = Raise (ValueError ("Columns not found, columns in df: "
                                ++ Py.repr_list (columns df)))) \/
      (matching_columns self (columns df) <> [] /\
       fst (transform df self)
         = Raise (AttributeError "'NoneType' object has no attribute 'name'")))).
Proof.
  intros V session engine df self. split.
  - intros msg. rewrite transform_run. cbn [fst]. split.
    + destruct (fst (transform_columns df self)) as [[|c sel]|e] eqn:Hsel.
      * discriminate.
      * destruct (_parent self) as [feature|]; cbn [name_of].
        -- intros H. apply withColumn_raise in H as [why H]. discriminate.
        -- intros H. injection H as <-. split; [reflexivity|].
           split; [reflexivity|]. now exists c, sel.
      * intros H. injection H as ->. exfalso.
        apply transform_columns_raise in Hsel as [p [c [_ [_ Hraise]]]].
        apply matcher_raise in Hraise as [Hraise _]. discriminate.
    + intros [-> [Hparent [c [sel Hsel]]]]. now rewrite Hsel, Hparent.
  - intros Hmode.
    assert (Hanswers : forall pattern column,
              exists b, fst (_matches_pattern pattern column self) = Ok b).
    { intros p c. apply matcher_answers. congruence. }
    assert (Hsel : fst (transform_columns df self)
                   = Ok (matching_columns self (columns df))).
    { apply transform_columns_total. intros p c _ _. apply Hanswers. }
    split; [exact Hanswers|]. split; [exact Hsel|].
    intros Hparent. rewrite transform_run. cbn [fst]. rewrite Hsel, Hparent.
    destruct (matching_columns self (columns df)) as [|c sel].
    + left. now split.
    + right. split; [discriminate | reflexivity].
Qed.

Lemma X2_witness :
  fst (@transform_columns Z MiniRe.engine Sample.df Sample.unbound)
    = Ok (@matching_columns MiniRe.engine Sample.unbound (columns Sample.df)) /\
  fst (@transform Z caseSensitiveResolution MiniRe.engine
         Sample.df Sample.unbound)
    = Raise (AttributeError "'NoneType' object has no attribute 'name'").
Proof.
  pose proof (X2_errors_of_transform Z caseSensitiveResolution MiniRe.engine
                Sample.df Sample.unbound) as [Hattr Hsimple].
  split.
  - exact (proj1 (proj2 (Hsimple eq_refl))).
  - apply (proj2 (Hattr _)). split; [reflexivity|]. split; [reflexivity|].
    now exists "id_a"%string, ["id_b"%string].
Defined.

(** X3: whenever [transform] returns a table and at most one column of
    the input answered to the name of the feature, at least one column
    was selected and the table has one column more than the input if no
    column answered to the name, and as many if one did; unless the
    name of a selected column is a star, it has one row per input row
    and selected column (so never fewer rows than the input: a null
    value is stacked like any other). *)
Theorem X3_rows_multiply :
  forall (V : Type) (session : NameResolution) (engine : ReEngine)
         (df out : DataFrame V) (self : StackTransform) (feature : Feature),
    _parent self = Some feature ->
    fst (transform df self) = Ok out ->
    List.length (candidates 0 (columns df) (name feature)) <= 1 ->
    let sel := matching_columns self (columns df) in
    sel <> [] /\
    List.length (columns out)
      + List.length (candidates 0 (columns df) (name feature))
    = S (List.length (columns df)) /\
    (star_free sel ->
     List.length (rows out) = List.length (rows df) * List.length sel /\
     List.length (rows df) <= List.length (rows out)).
Proof.
  intros V session engine df out self feature Hparent Hout Hone sel.
  apply transform_returns in Hout as [feature' [c [l [Hp [Hsel Hwith]]]]].
  assert (feature' = feature) by congruence. subst feature'.
  apply withColumn_shape in Hwith as [_ Hshape].
  destruct (Hshape Hone) as [Hrows Hcols].
  subst sel. rewrite Hsel.
  split; [discriminate|]. split; [exact Hcols|].
  intros Hfree. specialize (Hrows Hfree). split; [exact Hrows|].
  rewrite Hrows. cbn [List.length]. nia.
Qed.

Lemma X3_witness :
  exists out,
    fst (@transform Z caseSensitiveResolution MiniRe.engine
           Sample.df Sample.overwriting) = Ok out /\
    List.length (rows out)
    = List.length (rows Sample.df)
      * List.length (@matching_columns MiniRe.engine Sample.overwriting
                       (columns Sample.df)).
Proof.
  eexists. split; [reflexivity|].
  refine (proj1 (proj2 (proj2
            (X3_rows_multiply Z caseSensitiveResolution MiniRe.engine
               Sample.df _ Sample.overwriting Sample.feature_again
               eq_refl eq_refl (le_n 1))) _)).
  intros c [<-|[<-|[]]]; reflexivity.
Defined.

(** ** Wildcards, plain names and negation *)

Local Open Scope string_scope.

Lemma append_split (a b c d : string) :
  a ++ b = c ++ d -> String.length a <= String.length c ->
  exists m, c = a ++ m /\ b = m ++ d.
Proof.
  revert c. induction a as [|x a IH]; intros c Heq Hlen.
  - exists c. now split.
  - destruct c as [|y c]; [simpl in Hlen; lia|].
    simpl in Heq, Hlen. injection Heq as -> Heq.
    destruct (IH c Heq) as [m [-> ->]]; [lia|]. now exists m.
Qed.

(** X4: in simplified mode a pattern [pre*suf] with one wildcard and
    no negation matches the column names that start with [pre] and end
    with [suf].  Among the names at least as long as [pre] and [suf]
    together these are the names [pre ++ mid ++ suf], as for a glob;
    every such name is matched. *)
Theorem X4_single_wildcard :
  forall (engine : ReEngine) (self : StackTransform) (pre suf C : string),
    regex_enabled self = false ->
    Py.contains "*" pre = false -> Py.contains "*" suf = false ->
    Py.startswith pre "!" = false ->
    fst (_matches_pattern (pre ++ "*" ++ suf) C self) =
      Ok (Py.startswith C pre && Py.endswith C suf) /\
    ((exists mid, C = pre ++ mid ++ suf) ->
     fst (_matches_pattern (pre ++ "*" ++ suf) C self) = Ok true) /\
    (String.length pre + String.length suf <= String.length C ->
     fst (_matches_pattern (pre ++ "*" ++ suf) C self) = Ok true ->
     exists mid, C = pre ++ mid ++ suf).
Proof.
  intros engine self pre suf C Hmode Hpre Hsuf Hneg.
  assert (Hrun : fst (_matches_pattern (pre ++ "*" ++ suf) C self) =
                 Ok (Py.startswith C pre && Py.endswith C suf)).
  { rewrite (matches_simple self _ C Hmode).
    replace (Py.startswith (pre ++ "*" ++ suf) "!") with false.
    - cbn [fst]. unfold wildcard_match.
      change (pre ++ "*" ++ suf) with (pre ++ String "*" suf).
      now rewrite (before_first_append "*" pre suf Hpre),
        (after_last_append "*" pre suf Hsuf).
    - destruct pre as [|c pre]; [reflexivity | exact (eq_sym Hneg)]. }
  split; [exact Hrun|]. rewrite Hrun. split.
  - intros [mid ->]. f_equal. apply andb_true_iff. split.
    + apply startswith_spec. now exists (mid ++ suf).
    + apply endswith_spec. exists (pre ++ mid). now rewrite append_assoc.
  - intros Hlen H. injection H as H. apply andb_true_iff in H as [Hs He].
    apply startswith_spec in Hs as [t Ht].
    apply endswith_spec in He as [t' Ht'].
    assert (Hlen' : String.length pre <= String.length t').
    { rewrite Ht' in Hlen. rewrite length_append in Hlen. lia. }
    rewrite Ht in Ht'.
    destruct (append_split pre t t' suf Ht' Hlen') as [mid [_ Hmid]].
    exists mid. now rewrite Ht, Hmid.
Qed.

Lemma X4_witness :
  fst (@_matches_pattern MiniRe.engine ("id_" ++ "*" ++ "_x") "id_a_x"
         Sample.simple) = Ok true /\
  exists mid, "id_a_x" = "id_" ++ mid ++ "_x".
Proof.
  pose proof (X4_single_wildcard MiniRe.engine Sample.simple "id_" "_x" "id_a_x"
                eq_refl eq_refl eq_refl eq_refl) as [_ [Hin Hout]].
  split.
  - apply Hin. now exists "a".
  - apply Hout; [cbn; lia | reflexivity].
Defined.

(** X5: in simplified mode a pattern without wildcard and without
    negation matches only column names that start and end with it, so
    names at least as long as the pattern; a name that is not longer
    than the pattern is matched only if it is the pattern itself.  The
    names such a pattern selects beyond its own are strictly longer. *)
Theorem X5_plain_pattern_on_short_names :
  forall (engine : ReEngine) (self : StackTransform) (P C : string),
    regex_enabled self = false ->
    Py.contains "*" P = false -> Py.startswith P "!" = false ->
    fst (_matches_pattern P C self) = Ok true ->
    (exists t, C = P ++ t) /\ (exists t, C = t ++ P) /\
    String.length P <= String.length C /\
    (String.length C <= String.length P -> C = P) /\
    (C <> P -> String.length P < String.length C).
Proof.
  intros engine self P C Hmode Hstar Hneg.
  rewrite (matches_plain self P C Hmode Hstar Hneg).
  intros H. injection H as H. apply andb_true_iff in H as [Hs He].
  apply startswith_spec in Hs as [t Ht]. apply endswith_spec in He.
  assert (Hshort : String.length C <= String.length P -> C = P).
  { intros Hlen. rewrite Ht, length_append in Hlen.
    destruct t as [|c t]; [now rewrite Ht, append_nil_r | simpl in Hlen; lia]. }
  split; [now exists t|]. split; [exact He|].
  split; [rewrite Ht, length_append; lia|]. split; [exact Hshort|].
  intros Hne.
  destruct (Nat.lt_ge_cases (String.length P) (String.length C)) as [Hlt|Hge];
    [exact Hlt | now destruct (Hne (Hshort Hge))].
Qed.

Lemma X5_witness :
  String.length "ab" < String.length "abab".
Proof.
  refine (proj2 (proj2 (proj2 (proj2
            (X5_plain_pattern_on_short_names MiniRe.engine Sample.simple
               "ab" "abab" eq_refl eq_refl eq_refl eq_refl)))) _).
  discriminate.
Defined.

Local Open Scope list_scope.

Lemma filter_complement_length {A : Type} (f : A -> bool) (l : list A) :
  List.length (filter f l) + List.length (filter (fun x => negb (f x)) l)
  = List.length l.
Proof.
  induction l as [|x l IH]; [reflexivity|].
  cbn [filter]. destruct (f x); cbn [negb List.length]; lia.
Qed.

(** X6: in simplified mode the instance with the single pattern [!Q]
    and the one with the single pattern [Q] (where [Q] does not start
    with [!]) divide the columns of every table between them: both
    selections return, a column is selected by the one exactly when it
    is not selected by the other, and the two selections together are
    as long as the column list. *)
Theorem X6_negation_selects_the_complement :
  forall (V : Type) (engine : ReEngine) (df : DataFrame V)
         (self : StackTransform) (Q : string),
    regex_enabled self = false ->
    Py.startswith Q "!" = false ->
    let plain := snd (set_columns_names [Q] self) in
    let negated := snd (set_columns_names [("!" ++ Q)%string] self) in
    exists sel sel',
      fst (transform_columns df plain) = Ok sel /\
      fst (transform_columns df negated) = Ok sel' /\
      (forall c, In c (columns df) -> (In c sel' <-> ~ In c sel)) /\
      List.length sel + List.length sel' = List.length (columns df).
Proof.
  intros V engine df self Q Hmode HQ plain negated.
  assert (Hp : regex_enabled plain = false) by exact Hmode.
  assert (Hn : regex_enabled negated = false) by exact Hmode.
  exists (matching_columns plain (columns df)),
         (matching_columns negated (columns df)).
  assert (Hsel : forall s : StackTransform, regex_enabled s = false ->
            fst (transform_columns df s) = Ok (matching_columns s (columns df))).
  { intros s Hs. apply transform_columns_total. intros p c _ _.
    apply matcher_answers. congruence. }
  split; [now apply Hsel|]. split; [now apply Hsel|].
  assert (Hb : forall c,
            existsb (fun p => matches_b negated p c) (columns_names negated)
            = negb (existsb (fun p => matches_b plain p c) (columns_names plain))).
  { intros c. cbn [negated plain set_columns_names snd columns_names existsb].
    rewrite !orb_false_r. unfold matches_b.
    rewrite (matches_simple _ _ c Hn), (matches_simple _ _ c Hp), HQ.
    reflexivity. }
  split.
  - intros c Hc. unfold matching_columns. rewrite !filter_In, Hb.
    destruct (existsb _ (columns_names plain)); cbn [negb]; split.
    + intros [_ H]. discriminate.
    + intros H. destruct H. now split.
    + intros _ [_ H]. discriminate.
    + intros _. now split.
  - unfold matching_columns.
    rewrite (filter_ext _ _ Hb). apply filter_complement_length.
Qed.

Lemma X6_witness :
  exists sel sel',
    fst (@transform_columns Z MiniRe.engine Sample.df
           (snd (set_columns_names ["id_*"%string] Sample.simple))) = Ok sel /\
    fst (@transform_columns Z MiniRe.engine Sample.df
           (snd (set_columns_names [("!" ++ "id_*")%string] Sample.simple)))
      = Ok sel' /\
    (forall c, In c (columns Sample.df) -> (In c sel' <-> ~ In c sel)) /\
    List.length sel + List.length sel' = List.length (columns Sample.df).
Proof.
  exact (X6_negation_selects_the_complement Z MiniRe.engine Sample.df
           Sample.simple "id_*" eq_refl eq_refl).
Defined.

(** ** Several patterns *)

Lemma filter_subsequence {A : Type} (f g : A -> bool) (l : list A) :
  (forall x, f x = true -> g x = true) ->
  subsequence (filter f l) (filter g l).
Proof.
  intros Hfg. induction l as [|x l IH]; [constructor|].
  cbn [filter]. destruct (f x) eqn:Hf.
  - rewrite (Hfg x Hf). now constructor.
  - destruct (g x); [now constructor | exact IH].
Qed.

(** X7: patterns accumulate.  When every pattern compiles (always so
    in simplified mode), the selection under the patterns [l1 ++ l2]
    returns, as the selections under [l1] and under [l2] do; it holds a
    column exactly when one of the two holds it, and both are
    subsequences of it: adding patterns never drops a selected column
    nor changes the order of the selected ones. *)
Theorem X7_patterns_accumulate :
  forall (V : Type) (engine : ReEngine) (df : DataFrame V)
         (self : StackTransform) (l1 l2 : list string),
    (regex_enabled self = true ->
     forall p, In p (l1 ++ l2) -> re_compile p <> None) ->
    exists sel1 sel2 sel,
      fst (transform_columns df (snd (set_columns_names l1 self))) = Ok sel1 /\
      fst (transform_columns df (snd (set_columns_names l2 self))) = Ok sel2 /\
      fst (transform_columns df (snd (set_columns_names (l1 ++ l2) self)))
        = Ok sel /\
      (forall c, In c sel <-> In c sel1 \/ In c sel2) /\
      subsequence sel1 sel /\ subsequence sel2 sel.
Proof.
  intros V engine df self l1 l2 Hok.
  assert (Hsel : forall l, (forall p, In p l -> In p (l1 ++ l2)) ->
            fst (transform_columns df (snd (set_columns_names l self)))
            = Ok (matching_columns (snd (set_columns_names l self)) (columns df))).
  { intros l Hl. apply transform_columns_total. intros p c Hp _.
    apply matcher_answers. intros Hmode. apply Hok; [exact Hmode|].
    apply Hl. exact Hp. }
  assert (Hb : forall l c,
            existsb (fun p => matches_b (snd (set_columns_names l self)) p c)
                    (columns_names (snd (set_columns_names l self)))
            = existsb (fun p => matches_b self p c) l).
  { intros l c. change (columns_names (snd (set_columns_names l self))) with l.
    apply existsb_pointwise. intros p. unfold matches_b.
    now rewrite (matcher_depends_on_mode self (snd (set_columns_names l self))
                   p c eq_refl). }
  eexists _, _, _.
  split; [apply Hsel; intros p Hp; apply in_or_app; now left|].
  split; [apply Hsel; intros p Hp; apply in_or_app; now right|].
  split; [apply Hsel; intros p Hp; exact Hp|].
  unfold matching_columns.
  rewrite !(filter_ext _ _ (Hb _)). split; [|split].
  - intros c. rewrite !filter_In, existsb_app, orb_true_iff. tauto.
  - apply filter_subsequence. intros c H.
    rewrite existsb_app. now rewrite H.
  - apply filter_subsequence. intros c H.
    rewrite existsb_app, H. apply orb_true_r.
Qed.

Lemma X7_witness :
  exists sel1 sel2 sel,
    fst (@transform_columns Z MiniRe.engine Sample.df
           (snd (set_columns_names ["id_b"%string] Sample.by_regex))) = Ok sel1 /\
    fst (@transform_columns Z MiniRe.engine Sample.df
           (snd (set_columns_names ["fea"%string] Sample.by_regex))) = Ok sel2 /\
    fst (@transform_columns Z MiniRe.engine Sample.df
           (snd (set_columns_names (["id_b"%string] ++ ["fea"%string])
                   Sample.by_regex)))
      = Ok sel /\
    (forall c, In c sel <-> In c sel1 \/ In c sel2) /\
    subsequence sel1 sel /\ subsequence sel2 sel.
Proof.
  apply (X7_patterns_accumulate Z MiniRe.engine Sample.df Sample.by_regex
           ["id_b"%string] ["fea"%string]).
  intros _ p [<-|[<-|[]]]; discriminate.
Defined.

(** ** A malformed regular expression *)

Section Reached.
Context {A : Type} (f : A -> Method bool).
Hypothesis f_reads : forall x, reads_only (f x).

(** [any] raises at the first element whose test raises, provided the
    tests before it are false. *)
Lemma any_raise_iff (l : list A) (self : StackTransform) (e : exn) :
  fst (any f l self) = Raise e <->
  exists l1 x l2,
    l = l1 ++ x :: l2 /\ fst (f x self) = Raise e /\
    forall y, In y l1 -> fst (f y self) = Ok false.
Proof.
  induction l as [|x l IH].
  - split; [discriminate|]. intros [l1 [y [l2 [H _]]]]. now destruct l1.
  - rewrite (any_cons f f_reads).
    destruct (fst (f x self)) as [[|]|e'] eqn:Hx; cbn [fst].
    + split; [discriminate|]. intros [l1 [y [l2 [Heq [Hy Hl1]]]]].
      destruct l1 as [|z l1]; injection Heq as <- _.
      * congruence.
      * specialize (Hl1 x (or_introl eq_refl)). congruence.
    + rewrite IH. split.
      * intros [l1 [y [l2 [-> [Hy Hl1]]]]]. exists (x :: l1), y, l2.
        split; [reflexivity|]. split; [exact Hy|].
        intros z [<-|Hz]; [exact Hx | now apply Hl1].
      * intros [l1 [y [l2 [Heq [Hy Hl1]]]]].
        destruct l1 as [|z l1]; injection Heq as <- ->.
        -- congruence.
        -- exists l1, y, l2. split; [reflexivity|]. split; [exact Hy|].
           intros w Hw. apply Hl1. now right.
    + split.
      * intros H. injection H as ->. exists [], x, l.
        split; [reflexivity|]. split; [exact Hx | intros y []].
      * intros [l1 [y [l2 [Heq [Hy Hl1]]]]].
        destruct l1 as [|z l1]; injection Heq as <- _.
        -- congruence.
        -- specialize (Hl1 x (or_introl eq_refl)). congruence.
Qed.

(** The comprehension raises as soon as the test of one element does. *)
Lemma comprehension_raises (l : list A) (self : StackTransform) (x : A)
  (e : exn) :
  In x l -> fst (f x self) = Raise e ->
  exists e', fst (comprehension f l self) = Raise e'.
Proof.
  induction l as [|y l IH]; [intros []|].
  intros Hin Hx. rewrite (comprehension_cons f f_reads).
  destruct (fst (f y self)) as [b|e'] eqn:Hy; [|now exists e'].
  destruct Hin as [->|Hin]; [congruence|].
  destruct (IH Hin Hx) as [e'' He''].
  destruct (comprehension f l self) as [[rest|e3] self']; cbn [fst] in *.
  - discriminate.
  - now exists e3.
Qed.

End Reached.

(** X8: [transform] raises the regex engine's error exactly when, in
    regex mode, some column of the table reaches a pattern that does
    not compile: the patterns before it in the list all answer false on
    that column.  A malformed pattern that stands behind patterns one
    of which matches every column is never compiled, and a table
    without columns never raises this error. *)
Theorem X8_malformed_pattern_must_be_reached :
  forall (V : Type) (session : NameResolution) (engine : ReEngine)
         (df : DataFrame V) (self : StackTransform),
    fst (transform df self) = Raise re_error <->
    regex_enabled self = true /\
    exists c l1 p l2,
      In c (columns df) /\ columns_names self = l1 ++ p :: l2 /\
      re_compile p = None /\
      forall q, In q l1 -> fst (_matches_pattern q c self) = Ok false.
Proof.
  intros V session engine df self. split.
  - intros H. rewrite transform_run in H. cbn [fst] in H.
    destruct (fst (transform_columns df self)) as [[|c sel]|e] eqn:Hsel.
    + discriminate.
    + destruct (name_of (_parent self)) as [n|e] eqn:Hn.
      * apply withColumn_raise in H as [why H]. discriminate.
      * destruct (_parent self); [discriminate|].
        injection Hn as <-. discriminate.
    + injection H as ->.
      apply (comprehension_raise any_pattern_matches any_pattern_reads) in Hsel
        as [c [Hc Hraise]].
      rewrite any_pattern_run in Hraise.
      apply (any_raise_iff _ (matcher_reads c)) in Hraise
        as [l1 [p [l2 [Heq [Hp Hl1]]]]].
      apply matcher_raise in Hp as [_ [Hmode Hnone]].
      split; [exact Hmode|]. now exists c, l1, p, l2.
  - intros [Hmode [c [l1 [p [l2 [Hc [Heq [Hnone Hl1]]]]]]]].
    assert (Hraise : fst (any_pattern_matches c self) = Raise re_error).
    { rewrite any_pattern_run.
      apply (any_raise_iff _ (matcher_reads c)). exists l1, p, l2.
      split; [exact Heq|]. split; [|exact Hl1].
      rewrite (matches_regex self p c Hmode). unfold re.match_.
      now rewrite Hnone. }
    destruct (comprehension_raises any_pattern_matches any_pattern_reads
                (columns df) self c re_error Hc Hraise) as [e He].
    fold (transform_columns df self) in He.
    rewrite transform_run. cbn [fst]. rewrite He. f_equal.
    apply transform_columns_raise in He as [q [d [_ [_ Hq]]]].
    now apply matcher_raise in Hq as [-> _].
Qed.

Lemma X8_witness :
  fst (@transform Z caseSensitiveResolution MiniRe.engine
         Sample.df Sample.half_malformed) = Raise re_error.
Proof.
  apply (proj2 (X8_malformed_pattern_must_be_reached Z caseSensitiveResolution
                  MiniRe.engine Sample.df Sample.half_malformed)).
  split; [reflexivity|].
  exists "feature"%string, ["id_a"%string], "("%string, [].
  split; [now left|]. split; [reflexivity|]. split; [reflexivity|].
  intros q [<-|[]]. reflexivity.
Defined.

(** ** A feature named after an existing column *)

Lemma flat_map_ext_Forall {A B : Type} (f g : A -> list B) (l : list A) :
  Forall (fun x => f x = g x) l -> flat_map f l = flat_map g l.
Proof.
  induction 1 as [|x l Hx _ IH]; [reflexivity|].
  cbn [flat_map]. now rewrite Hx, IH.
Qed.

Section Overwriting.
Context {V : Type} {session : NameResolution}.

Lemma candidates_none (j : nat) (schema : list string) (n : string) :
  candidates j schema n = [] ->
  map (fun field => if resolver field n then n else field) schema = schema /\
  forall (v : option V) (row : Row V), replace_fields schema n v row = row.
Proof.
  revert j. induction schema as [|f schema IH]; intros j.
  - intros _. split; [reflexivity|]. intros v row. now destruct row.
  - cbn [candidates]. destruct (resolver f n) eqn:Hf; [discriminate|].
    intros H. destruct (IH _ H) as [Hmap Hrow]. split.
    + cbn [map]. now rewrite Hf, Hmap.
    + intros v [|x row]; [reflexivity|].
      cbn [replace_fields]. now rewrite Hf, Hrow.
Qed.

(** When one field answers to [n], renaming touches that position of
    the schema only, and replacing touches that cell of a row only. *)
Lemma candidates_one (j : nat) (schema : list string) (n : string) (k : nat) :
  candidates j schema n = [k] ->
  exists i,
    k = j + i /\
    nth_error (map (fun field => if resolver field n then n else field) schema) i
      = Some n /\
    (forall i', i' <> i ->
       nth_error (map (fun field => if resolver field n then n else field) schema) i'
       = nth_error schema i') /\
    forall (v : option V) (row : Row V),
      List.length row = List.length schema ->
      replace_fields schema n v row = firstn i row ++ v :: skipn (S i) row.
Proof.
  revert j. induction schema as [|f schema IH]; intros j; [discriminate|].
  cbn [candidates]. destruct (resolver f n) eqn:Hf.
  - intros H. injection H as <- Hrest.
    destruct (candidates_none _ _ _ Hrest) as [Hmap Hrow].
    exists 0. split; [lia|]. cbn [map]. rewrite Hf, Hmap.
    split; [reflexivity|]. split.
    + intros [|i'] Hi'; [congruence | reflexivity].
    + intros v [|x row] Hlen; [discriminate|].
      cbn [replace_fields]. now rewrite Hf, Hrow.
  - intros H. destruct (IH _ H) as [i [Hk [Hn [Hother Hrow]]]].
    exists (S i). split; [lia|]. cbn [map]. rewrite Hf.
    split; [exact Hn|]. split.
    + intros [|i'] Hi'; [reflexivity|]. cbn [nth_error]. apply Hother. lia.
    + intros v [|x row] Hlen; [discriminate|].
      cbn [replace_fields]. rewrite Hf.
      cbn [List.length] in Hlen. rewrite (Hrow v row); [reflexivity | lia].
Qed.

End Overwriting.

(** X9: when exactly one column of the table, at position [k],
    already answers to the name [N] of the feature, [transform] adds no
    column: in the result the column list has the same length, holds
    [N] at position [k] and is unchanged elsewhere, and every input row
    gives one row per selected column, equal to the input row except
    for the cell at position [k], which holds the row's value in that
    selected column.  (The selection returns with at least one column,
    the selected columns can be put in one array as they are - plain
    names that each resolve to their own column and no other, one data
    type - and the rows are as wide as the column list.) *)
Theorem X9_existing_column_is_overwritten :
  forall (V : Type) (session : NameResolution) (engine : ReEngine)
         (df : DataFrame V) (self : StackTransform) (feature : Feature)
         (sel : list string) (k : nat),
    _parent self = Some feature ->
    fst (transform_columns df self) = Ok sel ->
    sel <> [] ->
    stackable df sel ->
    candidates 0 (columns df) (name feature) = [k] ->
    Forall (fun row => List.length row = List.length (columns df)) (rows df) ->
    exists out,
      fst (transform df self) = Ok out /\
      List.length (columns out) = List.length (columns df) /\
      nth_error (columns out) k = Some (name feature) /\
      (forall i, i <> k ->
                 nth_error (columns out) i = nth_error (columns df) i) /\
      rows out =
        flat_map (fun row =>
                    map (fun c => firstn k row
                                    ++ cell (columns df) row c :: skipn (S k) row)
                        sel)
                 (rows df).
Proof.
  intros V session engine df self feature sel k Hparent Hsel Hne Hstack Hone
    Hwide.
  destruct sel as [|c sel]; [congruence|].
  destruct (candidates_one (V := V) 0 (columns df) (name feature) k Hone)
    as [i [Hk [Hn [Hother Hrow]]]].
  cbn in Hk. subst i.
  rewrite transform_run. cbn [fst]. rewrite Hsel, Hparent. cbn [name_of].
  unfold withColumn.
  rewrite (analyse_array_stackable df c sel Hstack), Hone.
  eexists. split; [reflexivity|]. unfold columns in *. cbn [dtypes rows].
  rewrite columns_rename.
  split; [apply length_map|]. split; [exact Hn|]. split; [exact Hother|].
  apply flat_map_ext_Forall.
  apply Forall_impl with (2 := Hwide). intros row Hlen.
  unfold array_of. rewrite !map_map. apply map_ext. intros d.
  now apply Hrow.
Qed.

Lemma X9_witness :
  exists out,
    fst (@transform Z caseSensitiveResolution MiniRe.engine
           Sample.df Sample.overwriting) = Ok out /\
    List.length (columns out) = List.length (columns Sample.df) /\
    nth_error (columns out) 0 = Some "feature"%string /\
    (forall i, i <> 0 ->
               nth_error (columns out) i = nth_error (columns Sample.df) i) /\
    rows out =
      flat_map (fun row =>
                  map (fun c => firstn 0 row
                                  ++ cell (columns Sample.df) row c
                                       :: skipn 1 row)
                      ["id_a"; "id_b"]%string)
               (rows Sample.df).
Proof.
  apply (X9_existing_column_is_overwritten Z caseSensitiveResolution
           MiniRe.engine Sample.df Sample.overwriting Sample.feature_again
           ["id_a"; "id_b"]%string 0 eq_refl eq_refl).
  - discriminate.
  - split.
    + intros c [<-|[<-|[]]]; split; reflexivity.
    + intros c c' [<-|[<-|[]]] [<-|[<-|[]]]; reflexivity.
  - reflexivity.
  - repeat constructor.
Defined.
